(** * urlcache: a URL kept cached on disk and periodically refreshed

    A shallow embedding of the Go package [urlcache] (the scheme-based
    version: [Open], [readInitial], [keepCurrent], [checkUpdates],
    [updateFromWeb], [saveToTmpFile], [saveToFile] and the three
    [cacheScheme] implementations), together with the properties of the
    package's specification checked against it.

    The program is effectful: it touches the file system, the network, the
    clock and the log. The embedding threads a [World] through a small state
    monad [IO]; everything the environment decides (whether a request
    reaches the server, what the server answers, whether a file operation
    fails) is read from an oracle that is an explicit argument. *)

From Stdlib Require Import ZArith String Ascii List Bool Lia.
From stdpp Require Import base option list strings gmap.

Local Open Scope Z_scope.
Local Open Scope string_scope.
Local Open Scope list_scope.

(** ** Basic data *)

(** [[]byte] *)
Abbreviation bytes := (list Byte.byte).

(** [time.Time], counted from the zero value of the type (the value of a
    declared but unassigned [time.Time]). *)
Definition Time : Type := Z.
Definition zeroTime : Time := 0.

(** [time.Duration], in nanoseconds. *)
Definition Duration : Type := Z.
Definition Second : Duration := 1000000000.
Definition Minute : Duration := 60 * Second.

(** The failures of the operating system the program distinguishes:
    [os.IsExist], [os.IsNotExist], the error of an operation on a closed
    [*os.File], and the rest. *)
Inductive OsError : Type :=
| ErrExist
| ErrNotExist
| ErrClosed
| ErrPermission
| ErrIO.

(** Go's [error] values. [Errorf format cause] is
    [fmt.Errorf(format, ..., cause)]. *)
Inductive error : Type :=
| PathError (op path : string) (e : OsError)
| TransportError (msg : string)
| CallbackError (msg : string)
| Errorf (format : string) (cause : error).

(** ** The libraries the package calls *)

Module os.

Definition IsExist (err : error) : bool :=
  match err with
  | PathError _ _ ErrExist => true
  | _ => false
  end.

Definition IsNotExist (err : error) : bool :=
  match err with
  | PathError _ _ ErrNotExist => true
  | _ => false
  end.

(** A file on disk: its bytes and its modification time. *)
Record FileData : Type := { data : bytes; modTime : Time }.

(** [*os.File]: the name it was opened with, and whether [Close] has been
    called on it. *)
Record File : Type := { Name : string; closed : bool }.

Definition Close (f : File) : File := {| Name := Name f; closed := true |}.

End os.

Module http.

Definition MethodGet : string := "GET".
Definition StatusOK : Z := 200.
Definition StatusNotModified : Z := 304.

(** [http.Header], keyed by the header names the package uses. [Get] is
    [Header.Get]: for a key that is not there it gives the empty string,
    as in Go, so a header sent with an empty value and a header not sent
    look the same to the package. [Set_] is [Header.Set]. *)
Abbreviation Header := (gmap string string).

Definition Get (h : Header) (key : string) : string := default "" (h !! key).
Definition Set_ (h : Header) (key value : string) : Header := <[key := value]> h.

Record Request : Type :=
  { Method : string; URL : string; ReqHeader : Header }.

(** [Body] is what [ioutil.ReadAll(resp.Body)] gives: the bytes, or an
    error. *)
Record Response : Type :=
  { StatusCode : Z; RespHeader : Header; Body : bytes + error }.

(** [http.NewRequest(method, url, nil)]. It fails only on a method or a
    URL that cannot be parsed, and the package drops its error; such a URL
    never gets this far, [http.Head] refuses it first and no scheme is ever
    established. *)
Definition NewRequest (method url : string) : Request :=
  {| Method := method; URL := url; ReqHeader := ∅ |}.

End http.

Module filepath.

(** [filepath.Split], with [/] as the separator: the path up to and
    including its last separator, and what follows it. *)
Fixpoint Split (path : string) : string * string :=
  match path with
  | EmptyString => ("", "")
  | String ch rest =>
      let '(dir, file) := Split rest in
      match dir with
      | String _ _ => (String ch dir, file)
      | EmptyString =>
          if Ascii.eqb ch "/" then (String ch "", file)
          else ("", String ch file)
      end
  end.

End filepath.

(** ** cache_schemes.go *)

Definition lastModifiedHeader : string := "Last-Modified".
Definition ifModifiedSinceHeader : string := "If-Modified-Since".
Definition etagHeader : string := "ETag".
Definition ifNoneMatchHeader : string := "If-None-Match".

(** The three implementations of the interface [cacheScheme]. Each is used
    through a pointer that only the polling loop holds, so the mutation of
    its field by [onResponse] is the scheme that [onResponse] returns. *)
Inductive cacheScheme : Type :=
| lastModifiedScheme (lastModifiedDate : string)
| etagScheme (etag : string)
| noopScheme.

Definition prepareRequest (s : cacheScheme) (req : http.Request) : http.Request :=
  match s with
  | lastModifiedScheme lastModifiedDate =>
      {| http.Method := http.Method req; http.URL := http.URL req;
         http.ReqHeader :=
           http.Set_ (http.ReqHeader req) ifModifiedSinceHeader lastModifiedDate |}
  | etagScheme etag =>
      {| http.Method := http.Method req; http.URL := http.URL req;
         http.ReqHeader := http.Set_ (http.ReqHeader req) ifNoneMatchHeader etag |}
  | noopScheme => req
  end.

Definition onResponse (s : cacheScheme) (resp : http.Response) : cacheScheme :=
  match s with
  | lastModifiedScheme _ =>
      lastModifiedScheme (http.Get (http.RespHeader resp) lastModifiedHeader)
  | etagScheme _ => etagScheme (http.Get (http.RespHeader resp) etagHeader)
  | noopScheme => noopScheme
  end.

(** Which implementation a scheme value is, and the token it stores. *)
Inductive schemeKind : Type := KLastModified | KEtag | KNoop.

Definition kindOf (s : cacheScheme) : schemeKind :=
  match s with
  | lastModifiedScheme _ => KLastModified
  | etagScheme _ => KEtag
  | noopScheme => KNoop
  end.

Definition tokenOf (s : cacheScheme) : option string :=
  match s with
  | lastModifiedScheme d => Some d
  | etagScheme e => Some e
  | noopScheme => None
  end.

(** ** The world the program runs in *)

Abbreviation FS := (gmap string os.FileData).

Inductive LogLevel : Type := Info | Error.

(** What the program does to its environment, in the order it does it. An
    event is recorded when the operation is attempted, whether or not it
    succeeds. *)
Inductive Event : Type :=
| EvMkdirAll (dir : string)
| EvOpen (path : string)
| EvOnUpdate (data : bytes)
| EvHead (url : string)
| EvDo (req : http.Request)
| EvOpenFile (path : string)
| EvWrite (path : string) (data : bytes)
| EvRemove (path : string)
| EvRename (oldpath newpath : string)
| EvSleep (d : Duration)
| EvLog (level : LogLevel) (format : string) (err : option error).

(** [urlcache], the receiver of the package's methods. The callback reads
    from an [io.Reader]; here it is given the bytes behind that reader. *)
Record urlcache : Type :=
  { url : string;
    cacheFile : string;
    checkInterval : Duration;
    onUpdate : bytes → option error }.

(** A goroutine started by [go c.keepCurrent(initialDate)]. *)
Record Goroutine : Type := { g_cache : urlcache; g_initialDate : Time }.

(** [fs] is the disk, [now] the clock, [trace] the events so far, [disk_log]
    every state the disk has been in after a change (what somebody else
    reading the disk could have seen), [spawned] the goroutines started. *)
Record World : Type :=
  { fs : FS;
    now : Time;
    trace : list Event;
    disk_log : list FS;
    spawned : list Goroutine }.

Definition IO (A : Type) : Type := World → A * World.

#[global] Instance IO_ret : MRet IO := λ A (a : A) w, (a, w).
#[global] Instance IO_bind : MBind IO :=
  λ A B (f : A → IO B) (m : IO A) w, let '(a, w') := m w in f a w'.

Definition emit (e : Event) : IO unit := λ w,
  (tt, {| fs := fs w; now := now w; trace := trace w ++ [e];
          disk_log := disk_log w; spawned := spawned w |}).

Definition getFS : IO FS := λ w, (fs w, w).

Definition getNow : IO Time := λ w, (now w, w).

Definition putFS (f : FS) : IO unit := λ w,
  (tt, {| fs := f; now := now w; trace := trace w;
          disk_log := disk_log w ++ [f]; spawned := spawned w |}).

Definition advance (d : Duration) : IO unit := λ w,
  (tt, {| fs := fs w; now := now w + d; trace := trace w;
          disk_log := disk_log w; spawned := spawned w |}).

Definition spawn (g : Goroutine) : IO unit := λ w,
  (tt, {| fs := fs w; now := now w; trace := trace w;
          disk_log := disk_log w; spawned := spawned w ++ [g] |}).

(** *** Logging and sleeping *)

Definition log_Infof (format : string) (err : option error) : IO unit :=
  emit (EvLog Info format err).

Definition log_Errorf (format : string) (err : option error) : IO unit :=
  emit (EvLog Error format err).

Definition time_Sleep (d : Duration) : IO unit :=
  emit (EvSleep d);; advance d.

(** *** Files *)

(** [os.MkdirAll(dir, 0755)]; directories are not part of [FS], the
    outcome is the oracle's. *)
Definition os_MkdirAll (fault : option OsError) (dir : string) : IO (option error) :=
  emit (EvMkdirAll dir);;
  mret (PathError "mkdir" dir <$> fault).

(** [os.Open(path)]: a file that is not there cannot be opened; one that is
    there may still be refused. *)
Definition os_Open (fault : option OsError) (path : string) : IO (os.File + error) :=
  emit (EvOpen path);;
  disk ← getFS;
  match disk !! path with
  | None => mret (inr (PathError "open" path ErrNotExist))
  | Some _ =>
      match fault with
      | Some e => mret (inr (PathError "open" path e))
      | None => mret (inl {| os.Name := path; os.closed := false |})
      end
  end.

(** The bytes a reader over an open file yields. *)
Definition readContents (f : os.File) : IO bytes :=
  disk ← getFS;
  mret (from_option os.data [] (disk !! os.Name f)).

(** [f.Stat()]: on a file that has been closed it fails (the descriptor is
    gone), otherwise it reports the file's modification time. *)
Definition os_File_Stat (f : os.File) : IO (Time + error) :=
  if os.closed f then mret (inr (PathError "stat" (os.Name f) ErrClosed))
  else
    disk ← getFS;
    match disk !! os.Name f with
    | Some d => mret (inl (os.modTime d))
    | None => mret (inr (PathError "stat" (os.Name f) ErrNotExist))
    end.

(** [os.OpenFile(path, os.O_CREATE|os.O_TRUNC|os.O_WRONLY, 0644)]: on
    success the file exists and is empty. *)
Definition os_OpenFile (fault : option OsError) (path : string) : IO (os.File + error) :=
  emit (EvOpenFile path);;
  match fault with
  | Some e => mret (inr (PathError "open" path e))
  | None =>
      disk ← getFS;
      t ← getNow;
      putFS (<[path := {| os.data := []; os.modTime := t |}]> disk);;
      mret (inl {| os.Name := path; os.closed := false |})
  end.

(** [f.Write(data)] on a file just truncated. [short = Some n] is a write
    that fails after [n] bytes. *)
Definition os_File_Write (short : option nat) (f : os.File) (data : bytes) : IO (option error) :=
  let written := match short with Some n => take n data | None => data end in
  emit (EvWrite (os.Name f) written);;
  disk ← getFS;
  t ← getNow;
  putFS (<[os.Name f := {| os.data := written; os.modTime := t |}]> disk);;
  mret (match short with
        | Some _ => Some (PathError "write" (os.Name f) ErrIO)
        | None => None
        end).

(** [os.Remove(path)] *)
Definition os_Remove (fault : option OsError) (path : string) : IO (option error) :=
  emit (EvRemove path);;
  disk ← getFS;
  match disk !! path with
  | None => mret (Some (PathError "remove" path ErrNotExist))
  | Some _ =>
      match fault with
      | Some e => mret (Some (PathError "remove" path e))
      | None => putFS (delete path disk);; mret None
      end
  end.

(** [os.Rename(oldpath, newpath)] *)
Definition os_Rename (fault : option OsError) (oldpath newpath : string) : IO (option error) :=
  emit (EvRename oldpath newpath);;
  disk ← getFS;
  match fault, disk !! oldpath with
  | Some e, _ => mret (Some (PathError "rename" oldpath e))
  | None, None => mret (Some (PathError "rename" oldpath ErrNotExist))
  | None, Some d => putFS (<[newpath := d]> (delete oldpath disk));; mret None
  end.

(** *** The network *)

Definition http_Head (answer : http.Response + error) (u : string) : IO (http.Response + error) :=
  emit (EvHead u);; mret answer.

Definition client_Do (answer : http.Response + error) (req : http.Request) : IO (http.Response + error) :=
  emit (EvDo req);; mret answer.

(** ** What the environment decides *)

(** For [Open]: the outcome of creating the directory and of opening the
    cache file for reading. *)
Record StartOracle : Type :=
  { mkdirFault : option OsError;
    openFault : option OsError }.

(** For one iteration of the polling loop: what the two requests come back
    with, and which file operations fail. *)
Record CycleOracle : Type :=
  { headAnswer : http.Response + error;
    getAnswer : http.Response + error;
    tmpOpenFault : option OsError;
    tmpWriteShort : option nat;
    destOpenFault : option OsError;
    destWriteShort : option nat;
    removeFault : option OsError;
    renameFault : option OsError }.

(** ** urlcache.go *)

Definition defaultCheckInterval : Duration := 1 * Minute.

(** [c.onUpdate(reader)] *)
Definition callOnUpdate (c : urlcache) (data : bytes) : IO (option error) :=
  emit (EvOnUpdate data);; mret (onUpdate c data).

Definition readInitial (c : urlcache) (o : StartOracle) : IO Time :=
  let currentDate := zeroTime in
  r ← os_Open (openFault o) (cacheFile c);
  match r with
  | inr _ => mret currentDate
  | inl file =>
      contents ← readContents file;
      err ← callOnUpdate c contents;
      let file := os.Close file in
      match err with
      | Some _ => mret currentDate
      | None =>
          st ← os_File_Stat file;
          match st with
          | inr _ => mret currentDate
          | inl modTime =>
              log_Infof "Successfully initialized from %v" None;;
              mret modTime
          end
      end
  end.

Definition saveToFile (short : option nat) (f : os.File) (data : bytes) : IO (option error) :=
  err ← os_File_Write short f data;
  match err with
  | Some e =>
      mret (Some (Errorf "Unable to copy contents from web to temp file: %v" e))
  | None => mret None
  end.

Definition saveToTmpFile (c : urlcache) (o : CycleOracle) (data : bytes) : IO (string * option error) :=
  let tmpFileName := cacheFile c +:+ "_temp" in
  r ← os_OpenFile (tmpOpenFault o) tmpFileName;
  match r with
  | inr err => mret ("", Some (Errorf "Unable to create temp file %v: %v" err))
  | inl f =>
      esave ← saveToFile (tmpWriteShort o) f data;
      mret (os.Name f, esave)
  end.

(** The scheme is passed by pointer and [onResponse] writes to it; the
    scheme returned is the caller's scheme after the call. *)
Definition updateFromWeb (c : urlcache) (o : CycleOracle) (scheme : cacheScheme) : IO (cacheScheme * option error) :=
  let req := http.NewRequest http.MethodGet (url c) in
  let req := prepareRequest scheme req in
  r ← client_Do (getAnswer o) req;
  match r with
  | inr err => mret (scheme, Some (Errorf "Unable to update from web: %v" err))
  | inl resp =>
      let scheme := onResponse scheme resp in
      if decide (http.StatusCode resp = http.StatusNotModified)
      then mret (scheme, None)
      else
        match http.Body resp with
        | inr err =>
            mret (scheme, Some (Errorf "Unable to read data from web: %v" err))
        | inl data =>
            err ← callOnUpdate c data;
            match err with
            | Some e => mret (scheme, Some e)
            | None =>
                '(tmpName, esave) ← saveToTmpFile c o data;
                match esave with
                | Some e =>
                    log_Infof "Unable to save to temp file, will write directly to destination: %v" (Some e);;
                    r ← os_OpenFile (destOpenFault o) (cacheFile c);
                    match r with
                    | inr openErr =>
                        mret (scheme, Some (Errorf "Unable to open cache file: %v" openErr))
                    | inl f =>
                        e ← saveToFile (destWriteShort o) f data;
                        mret (scheme, e)
                    end
                | None =>
                    err ← os_Remove (removeFault o) (cacheFile c);
                    match err with
                    | Some e =>
                        if negb (os.IsNotExist e)
                        then mret (scheme, Some (Errorf "Unable to remove old cache file: %v" e))
                        else
                          err ← os_Rename (renameFault o) tmpName (cacheFile c);
                          mret (scheme, Errorf "Unable to move tmpFile to cacheFile: %v" <$> err)
                    | None =>
                        err ← os_Rename (renameFault o) tmpName (cacheFile c);
                        mret (scheme, Errorf "Unable to move tmpFile to cacheFile: %v" <$> err)
                    end
                end
            end
        end
  end.

Section Polling.

(** [t.Format(http.TimeFormat)] *)
Variable TimeFormat : Time → string.

(** The block [if scheme == nil { ... }] of [checkUpdates]. [None] is the
    nil interface value: the block gives [None] where [checkUpdates]
    returns the still unset scheme after a failed HEAD request. *)
Definition determineScheme (c : urlcache) (o : CycleOracle) (initialDate : Time) : IO (option cacheScheme) :=
  log_Infof "Cache scheme unknown, issue HEAD request to determine scheme" None;;
  r ← http_Head (headAnswer o) (url c);
  match r with
  | inr err =>
      log_Errorf "Unable to request modified of %v: %v" (Some err);;
      mret None
  | inl headResp =>
      if decide (http.Get (http.RespHeader headResp) lastModifiedHeader ≠ "")
      then
        log_Infof "Will use %v to determine when file changes" None;;
        mret (Some (lastModifiedScheme (TimeFormat initialDate)))
      else if decide (http.Get (http.RespHeader headResp) etagHeader ≠ "")
      then
        log_Infof "Will use %v to determine when file changes" None;;
        mret (Some (etagScheme ""))
      else
        log_Infof "Will always assume file changed" None;;
        mret (Some noopScheme)
  end.

Definition checkUpdates (c : urlcache) (o : CycleOracle) (initialDate : Time) (scheme : option cacheScheme) : IO (option cacheScheme) :=
  selected ←
    match scheme with
    | Some s => mret (Some s)
    | None => determineScheme c o initialDate
    end;
  match selected with
  | None => mret None
  | Some s =>
      '(s', err) ← updateFromWeb c o s;
      match err with
      | Some e => log_Errorf "Unable to update from web: %v" (Some e);; mret (Some s')
      | None => mret (Some s')
      end
  end.

(** The loop of [keepCurrent] never ends. [keepCurrentFrom] is the loop
    entered with a given value of the variable [scheme] and run for as
    many iterations as there are oracles, one for each. *)
Fixpoint keepCurrentFrom (c : urlcache) (initialDate : Time) (scheme : option cacheScheme) (os : list CycleOracle) : IO (option cacheScheme) :=
  match os with
  | [] => mret scheme
  | o :: rest =>
      scheme ← checkUpdates c o initialDate scheme;
      time_Sleep (checkInterval c);;
      keepCurrentFrom c initialDate scheme rest
  end.

Definition keepCurrent (c : urlcache) (initialDate : Time) (os : list CycleOracle) : IO (option cacheScheme) :=
  keepCurrentFrom c initialDate None os.

End Polling.

(** [go c.keepCurrent(c.readInitial())]: the argument is evaluated by the
    caller, the call itself is handed to a new goroutine. *)
Definition Open (o : StartOracle) (url cacheFile : string) (checkInterval : Duration) (onUpdate : bytes → option error) : IO (option error) :=
  let checkInterval :=
    if decide (checkInterval ≤ 0)%Z then defaultCheckInterval else checkInterval in
  let '(dir, _) := filepath.Split cacheFile in
  failure ←
    (if decide (dir ≠ "")
     then
       err ← os_MkdirAll (mkdirFault o) dir;
       match err with
       | Some e =>
           if negb (os.IsExist e)
           then mret (Some (Errorf "Unable to create cache dir %v: %v" e))
           else mret None
       | None => mret None
       end
     else mret None);
  match failure with
  | Some e => mret (Some e)
  | None =>
      let c := {| url := url; cacheFile := cacheFile;
                  checkInterval := checkInterval; onUpdate := onUpdate |} in
      initialDate ← readInitial c o;
      spawn {| g_cache := c; g_initialDate := initialDate |};;
      mret None
  end.

(** ** urlcache.go before the schemes *)

(** The package as it was when it compared dates itself: [checkUpdates]
    carries the date of the last update instead of a scheme, asks for the
    Last-Modified date with a HEAD request and fetches when that date is
    later. [Open], [readInitial] and the loop are as above, with the date
    in the place of the scheme. *)
Module Legacy.

(** What the environment decides in one iteration of the loop. [tempName]
    is the name [ioutil.TempFile] picks. *)
Record CycleOracle : Type :=
  { headAnswer : http.Response + error;
    getAnswer : http.Response + error;
    tempName : string;
    tempFault : option OsError;
    copyShort : option nat;
    reopenFault : option OsError;
    removeFault : option OsError;
    renameFault : option OsError }.

(** [http.Get(url)] *)
Definition http_Get (answer : http.Response + error) (u : string) : IO (http.Response + error) :=
  client_Do answer (http.NewRequest http.MethodGet u).

(** [ioutil.TempFile("", "urlcache")]: a new, empty file under a name that
    was not taken. *)
Definition ioutil_TempFile (fault : option OsError) (name : string) : IO (os.File + error) :=
  emit (EvOpenFile name);;
  match fault with
  | Some e => mret (inr (PathError "open" name e))
  | None =>
      disk ← getFS;
      match disk !! name with
      | Some _ => mret (inr (PathError "open" name ErrExist))
      | None =>
          t ← getNow;
          putFS (<[name := {| os.data := []; os.modTime := t |}]> disk);;
          mret (inl {| os.Name := name; os.closed := false |})
      end
  end.

(** [io.Copy(f, body)]: a body that cannot be read gives its error before
    anything is written. *)
Definition io_Copy (short : option nat) (f : os.File) (body : bytes + error) : IO (option error) :=
  match body with
  | inr err => mret (Some err)
  | inl data => os_File_Write short f data
  end.

(** [log.Debug] and [log.Debugf]; the trace has the levels [Info] and
    [Error] only, and records these lines as [Info]. *)
Definition log_Debugf (format : string) : IO unit :=
  emit (EvLog Info format None).

Definition saveToTmpFile (o : CycleOracle) (body : bytes + error) : IO (string * option error) :=
  r ← ioutil_TempFile (tempFault o) (tempName o);
  match r with
  | inr err => mret ("", Some (Errorf "Unable to create temp file: %v" err))
  | inl f =>
      err ← io_Copy (copyShort o) f body;
      match err with
      | Some e =>
          mret ("", Some (Errorf "Unable to copy contents from web to temp file: %v" e))
      | None => mret (os.Name f, None)
      end
  end.

Definition runUpdate (c : urlcache) (o : CycleOracle) (tmpName : string) : IO (option error) :=
  r ← os_Open (reopenFault o) tmpName;
  match r with
  | inr err => mret (Some (Errorf "Unable to reopen %s for reading: %v" err))
  | inl f =>
      contents ← readContents f;
      err ← callOnUpdate c contents;
      match err with
      | Some e => mret (Some (Errorf "Unable to call onUpdate: %v" e))
      | None => mret None
      end
  end.

Definition updateFromWeb (c : urlcache) (o : CycleOracle) : IO (option error) :=
  r ← http_Get (getAnswer o) (url c);
  match r with
  | inr err => mret (Some (Errorf "Unable to update from web: %v" err))
  | inl resp =>
      '(tmpName, esave) ← saveToTmpFile o (http.Body resp);
      match esave with
      | Some e => mret (Some e)
      | None =>
          err ← runUpdate c o tmpName;
          match err with
          | Some e => mret (Some e)
          | None =>
              err ← os_Remove (removeFault o) (cacheFile c);
              match err with
              | Some e =>
                  if negb (os.IsNotExist e)
                  then mret (Some (Errorf "Unable to remove old cache file: %v" e))
                  else
                    err ← os_Rename (renameFault o) tmpName (cacheFile c);
                    mret (Errorf "Unable to move tmpFile to cacheFile: %v" <$> err)
              | None =>
                  err ← os_Rename (renameFault o) tmpName (cacheFile c);
                  mret (Errorf "Unable to move tmpFile to cacheFile: %v" <$> err)
              end
          end
      end
  end.

Section Dates.

(** [http.ParseTime] *)
Variable ParseTime : string → Time + error.

Definition lastModified (resp : http.Response) : Time + error :=
  ParseTime (http.Get (http.RespHeader resp) lastModifiedHeader).

(** [lm.After(prevDate)] is [prevDate < lm]. *)
Definition checkUpdates (c : urlcache) (o : CycleOracle) (prevDate : Time) : IO Time :=
  let newDate := prevDate in
  r ← http_Head (headAnswer o) (url c);
  match r with
  | inr err =>
      log_Errorf "Unable to request modified of %v: %v" (Some err);;
      mret newDate
  | inl headResp =>
      match lastModified headResp with
      | inr err =>
          log_Errorf "Unable to parse modified date for %v: %v" (Some err);;
          mret newDate
      | inl lm =>
          if decide (prevDate < lm)%Z
          then
            log_Debugf "Updating from web";;
            err ← updateFromWeb c o;
            match err with
            | Some e =>
                log_Errorf "Unable to update from web: %v" (Some e);;
                mret newDate
            | None => mret lm
            end
          else mret newDate
      end
  end.

(** The loop of [keepCurrent], entered with a date and run for as many
    iterations as there are oracles. *)
Fixpoint keepCurrent (c : urlcache) (currentDate : Time) (os : list CycleOracle) : IO Time :=
  match os with
  | [] => mret currentDate
  | o :: rest =>
      currentDate ← checkUpdates c o currentDate;
      time_Sleep (checkInterval c);;
      keepCurrent c currentDate rest
  end.

End Dates.

End Legacy.

(** ** The process as a whole *)

(** [Open] followed by the first iterations of the goroutine it started,
    one for each oracle of [os]. What [Open] returned is returned at the
    end, unchanged: the goroutine has no way to reach it. *)
Definition process (TimeFormat : Time → string) (o : StartOracle) (url cacheFile : string) (checkInterval : Duration) (onUpdate : bytes → option error) (os : list CycleOracle) : IO (option error) :=
  err ← Open o url cacheFile checkInterval onUpdate;
  started ← (λ w, (spawned w, w));
  match started with
  | [] => mret err
  | g :: _ =>
      keepCurrent TimeFormat (g_cache g) (g_initialDate g) os;;
      mret err
  end.

(** ** Reading a trace *)


Definition isNetwork (e : Event) : bool :=
  match e with EvHead _ | EvDo _ => true | _ => false end.

Definition isCallback (e : Event) : bool :=
  match e with EvOnUpdate _ => true | _ => false end.

Definition isSleep (e : Event) : bool :=
  match e with EvSleep _ => true | _ => false end.

(** An operation that creates, writes, removes or replaces [path]. *)
Definition writesTo (path : string) (e : Event) : bool :=
  match e with
  | EvOpenFile p | EvWrite p _ | EvRemove p => bool_decide (p = path)
  | EvRename p q => bool_decide (p = path) || bool_decide (q = path)
  | _ => false
  end.

(** The world [w] after the events [evs], nothing else changed. *)
Definition after (w : World) (evs : list Event) : World :=
  {| fs := fs w; now := now w; trace := trace w ++ evs;
     disk_log := disk_log w; spawned := spawned w |}.

(** The world [w] after [time.Sleep(d)]. *)
Definition slept (w : World) (d : Duration) : World :=
  {| fs := fs w; now := now w + d; trace := trace w ++ [EvSleep d];
     disk_log := disk_log w; spawned := spawned w |}.

(** The bytes at [path]. *)
Definition contentAt (disk : FS) (path : string) : option bytes :=
  os.data <$> disk !! path.

(** The request [updateFromWeb] builds for a scheme. *)
Definition requestFor (c : urlcache) (s : cacheScheme) : http.Request :=
  prepareRequest s (http.NewRequest http.MethodGet (url c)).

(** The header of the response a scheme takes its token from. *)
Definition responseHeaderOf (s : cacheScheme) : option string :=
  match s with
  | lastModifiedScheme _ => Some lastModifiedHeader
  | etagScheme _ => Some etagHeader
  | noopScheme => None
  end.

(** The header of the request a scheme puts its token in. *)
Definition requestHeaderOf (s : cacheScheme) : option string :=
  match s with
  | lastModifiedScheme _ => Some ifModifiedSinceHeader
  | etagScheme _ => Some ifNoneMatchHeader
  | noopScheme => None
  end.



(** An operation that changes the disk. *)
Definition isDiskOp (e : Event) : bool :=
  match e with
  | EvOpenFile _ | EvWrite _ _ | EvRemove _ | EvRename _ _ => true
  | _ => false
  end.

(** The name [saveToTmpFile] gives the temporary file. *)
Definition tmpFileOf (c : urlcache) : string := cacheFile c +:+ "_temp".

(** The bytes of a call of the callback that the callback accepted. *)
Definition acceptedBy (c : urlcache) (e : Event) : option bytes :=
  match e with
  | EvOnUpdate body =>
      match onUpdate c body with
      | None => Some body
      | Some _ => None
      end
  | _ => None
  end.

(** The bytes the callback accepted last, in a run of events. *)
Definition lastAccepted (c : urlcache) (evs : list Event) : option bytes :=
  last (omap (acceptedBy c) evs).

(** The response to the GET request of a cycle, when there is one. *)
Definition answered (o : CycleOracle) : option http.Response :=
  match getAnswer o with
  | inl resp => Some resp
  | inr _ => None
  end.

(** The body of the answer to the GET request of a cycle, when the answer
    is not a 304 and its body can be read. *)
Definition delivered (o : CycleOracle) : option bytes :=
  match getAnswer o with
  | inl resp =>
      if decide (http.StatusCode resp = http.StatusNotModified) then None
      else match http.Body resp with
           | inl body => Some body
           | inr _ => None
           end
  | inr _ => None
  end.

(** The bytes the callback was called with, in a run of events. *)
Definition calls (evs : list Event) : list bytes :=
  omap (λ e, match e with EvOnUpdate body => Some body | _ => None end) evs.

(** A cycle in which the temporary file can be written, the old file
    removed and the temporary file renamed. *)
Definition diskWorks (o : CycleOracle) : Prop :=
  tmpOpenFault o = None ∧ tmpWriteShort o = None
  ∧ removeFault o = None ∧ renameFault o = None.

(** ** Concrete runs *)

Module Examples.

(** [t.Format(http.TimeFormat)], as far as the examples need it. *)
Definition httpDate (t : Time) : string :=
  if decide (t = zeroTime) then "Mon, 01 Jan 0001 00:00:00 GMT" else "later".

Definition accept : bytes → option error := λ _, None.

Definition reject : bytes → option error :=
  λ _, Some (CallbackError "cannot parse").

Definition cache (cb : bytes → option error) : urlcache :=
  {| url := "http://example.com/list";
     cacheFile := "var/list";
     checkInterval := 50000000;
     onUpdate := cb |}.

Definition old_bytes : bytes := [Byte.x6f; Byte.x6c; Byte.x64].
Definition new_bytes : bytes := [Byte.x6e; Byte.x65; Byte.x77].

(** An empty disk, and a disk with a cache file written earlier. *)
Definition bare : World :=
  {| fs := ∅; now := 1000; trace := []; disk_log := []; spawned := [] |}.

Definition cached : World :=
  {| fs := {[ "var/list" := {| os.data := old_bytes; os.modTime := 900 |} ]};
     now := 1000; trace := []; disk_log := []; spawned := [] |}.

(** A full answer carrying both headers, a full answer carrying none, and a
    304 that repeats no header. *)
Definition fresh : http.Response :=
  {| http.StatusCode := http.StatusOK;
     http.RespHeader := {[ "Last-Modified" := "Tue, 02 Jan 2024 00:00:00 GMT";
                           "ETag" := "v2" ]};
     http.Body := inl new_bytes |}.


Definition tagged : http.Response :=
  {| http.StatusCode := http.StatusOK;
     http.RespHeader := {[ "ETag" := "v2" ]};
     http.Body := inl new_bytes |}.

Definition unchanged : http.Response :=
  {| http.StatusCode := http.StatusNotModified;
     http.RespHeader := ∅;
     http.Body := inl [] |}.

Definition unreachable : http.Response + error :=
  inr (TransportError "no such host").

(** A cycle in which every file operation works. *)
Definition smooth (head get : http.Response + error) : CycleOracle :=
  {| headAnswer := head; getAnswer := get;
     tmpOpenFault := None; tmpWriteShort := None;
     destOpenFault := None; destWriteShort := None;
     removeFault := None; renameFault := None |}.

(** A cycle in which the temporary file cannot be created. *)
Definition no_temp (head get : http.Response + error) : CycleOracle :=
  {| headAnswer := head; getAnswer := get;
     tmpOpenFault := Some ErrPermission; tmpWriteShort := None;
     destOpenFault := None; destWriteShort := None;
     removeFault := None; renameFault := None |}.

Definition calm : StartOracle := {| mkdirFault := None; openFault := None |}.

End Examples.

(** ** The server of the package's tests *)

(** The handler of the server in [doTestCache]: it puts the current value
    [v] in the response header named [header], and compares with [v] the
    value of the header named [modifiedHeader] of the response it is
    building (not of the request, which it never looks at); the strings
    are compared byte by byte, as Go does. *)
Definition testHandler (header modifiedHeader v : string) : http.Response :=
  let h := http.Set_ ∅ header v in
  if String.ltb (http.Get h modifiedHeader) v
  then {| http.StatusCode := http.StatusOK;
          http.RespHeader := h;
          http.Body := inl (list_byte_of_string v) |}
  else {| http.StatusCode := http.StatusNotModified;
          http.RespHeader := h;
          http.Body := inl [] |}.

Module LegacyExamples.

(** [http.ParseTime], as far as the examples need it. *)
Definition parseDate (s : string) : Time + error :=
  if decide (s = "Tue, 02 Jan 2024 00:00:00 GMT") then inl 63839750400
  else inr (CallbackError "parsing time").

(** A cycle in which every file operation works. *)
Definition smooth (head get : http.Response + error) : Legacy.CycleOracle :=
  {| Legacy.headAnswer := head; Legacy.getAnswer := get;
     Legacy.tempName := "tmp/urlcache123456";
     Legacy.tempFault := None; Legacy.copyShort := None;
     Legacy.reopenFault := None;
     Legacy.removeFault := None; Legacy.renameFault := None |}.

End LegacyExamples.

(** ** Running the monad *)

Ltac run_io :=
  repeat (unfold mbind, mret, IO_bind, IO_ret, emit, putFS, getFS, getNow,
            advance, spawn, log_Infof, log_Errorf, time_Sleep,
            http_Head, client_Do, callOnUpdate, after in *; simpl in *).

Lemma kindOf_onResponse (s : cacheScheme) (resp : http.Response) :
  kindOf (onResponse s resp) = kindOf s.
Proof. by destruct s. Qed.

(** *** The three ways [updateFromWeb] leaves before it touches the disk *)

Lemma updateFromWeb_transport_error c o s w err :
  getAnswer o = inr err →
  updateFromWeb c o s w
  = (s, Some (Errorf "Unable to update from web: %v" err),
     after w [EvDo (requestFor c s)]).
Proof. intros H. unfold updateFromWeb. run_io. by rewrite H. Qed.

Lemma updateFromWeb_not_modified c o s w resp :
  getAnswer o = inl resp →
  http.StatusCode resp = http.StatusNotModified →
  updateFromWeb c o s w
  = (onResponse s resp, None, after w [EvDo (requestFor c s)]).
Proof.
  intros H Hst. unfold updateFromWeb. run_io. rewrite H.
  by destruct (decide _).
Qed.

Lemma updateFromWeb_unreadable c o s w resp err :
  getAnswer o = inl resp →
  http.StatusCode resp ≠ http.StatusNotModified →
  http.Body resp = inr err →
  updateFromWeb c o s w
  = (onResponse s resp, Some (Errorf "Unable to read data from web: %v" err),
     after w [EvDo (requestFor c s)]).
Proof.
  intros H Hst Hb. unfold updateFromWeb. run_io. rewrite H.
  destruct (decide _); [done|]. by rewrite Hb.
Qed.

Lemma updateFromWeb_callback_error c o s w resp body e :
  getAnswer o = inl resp →
  http.StatusCode resp ≠ http.StatusNotModified →
  http.Body resp = inl body →
  onUpdate c body = Some e →
  updateFromWeb c o s w
  = (onResponse s resp, Some e,
     after w [EvDo (requestFor c s); EvOnUpdate body]).
Proof.
  intros H Hst Hb Hcb. unfold updateFromWeb. run_io. rewrite H.
  destruct (decide _); [done|]. rewrite Hb, Hcb. run_io.
  by rewrite <- app_assoc.
Qed.

Lemma temp_name_differs (p : string) : p +:+ "_temp" ≠ p.
Proof. induction p as [|a p IH]; simpl; [done|]. intros H. by injection H. Qed.

(** Case analysis on the next thing the environment decides: an oracle's
    answer, or whether a file is on disk. *)
Ltac split_oracle :=
  match goal with
  | |- context [match ?x with _ => _ end] =>
      lazymatch type of x with
      | (_ * _)%type => fail
      | _ =>
          lazymatch x with
          | context [match _ with _ => _ end] => fail
          | _ => destruct x eqn:?
          end
      end
  end.

Ltac enter_updateFromWeb :=
  unfold updateFromWeb, saveToTmpFile, saveToFile, os_OpenFile,
    os_File_Write, os_Remove, os_Rename;
  run_io.

(** Whatever happens after the response has arrived, the scheme the caller
    holds afterwards is the one [onResponse] made of it. *)
Lemma updateFromWeb_scheme c o s w resp :
  getAnswer o = inl resp →
  (updateFromWeb c o s w).1.1 = onResponse s resp.
Proof.
  intros H. enter_updateFromWeb. rewrite H.
  repeat (split_oracle; run_io; try done).
Qed.

(** The request goes out first, whatever the scheme and the environment. *)
Lemma updateFromWeb_sends c o s w :
  ∃ rest, trace (updateFromWeb c o s w).2 = trace w ++ EvDo (requestFor c s) :: rest.
Proof.
  enter_updateFromWeb.
  repeat (split_oracle; run_io); rewrite <- ?app_assoc; simpl; by eexists.
Qed.

(** A response that is not a 304 and whose body can be read reaches the
    callback. *)
Lemma updateFromWeb_delivers c o s w resp body :
  getAnswer o = inl resp →
  http.StatusCode resp ≠ http.StatusNotModified →
  http.Body resp = inl body →
  ∃ rest, trace (updateFromWeb c o s w).2
          = trace w ++ EvDo (requestFor c s) :: EvOnUpdate body :: rest.
Proof.
  intros H Hst Hb. enter_updateFromWeb. rewrite H.
  destruct (decide _); [done|]. rewrite Hb. run_io.
  repeat (split_oracle; run_io); rewrite <- ?app_assoc; simpl; by eexists.
Qed.

(** [checkUpdates] with a scheme in hand is [updateFromWeb] and, when that
    failed, one line in the log. *)
Lemma checkUpdates_established TimeFormat c o d s w :
  checkUpdates TimeFormat c o d (Some s) w
  = let r := updateFromWeb c o s w in
    (Some r.1.1,
     match r.1.2 with
     | Some e => after r.2 [EvLog Error "Unable to update from web: %v" (Some e)]
     | None => r.2
     end).
Proof.
  unfold checkUpdates. run_io.
  destruct (updateFromWeb c o s w) as [[s' [e|]] w']; by run_io.
Qed.

(** One turn of the loop: [checkUpdates], the sleep, and the rest. *)
Lemma keepCurrentFrom_cons TimeFormat c d scheme o os w :
  keepCurrentFrom TimeFormat c d scheme (o :: os) w
  = let r := checkUpdates TimeFormat c o d scheme w in
    keepCurrentFrom TimeFormat c d r.1 os (slept r.2 (checkInterval c)).
Proof.
  simpl. unfold mbind at 1, IO_bind.
  destruct (checkUpdates TimeFormat c o d scheme w) as [r w']. by run_io.
Qed.

Lemma keepCurrentFrom_nil TimeFormat c d scheme w :
  keepCurrentFrom TimeFormat c d scheme [] w = (scheme, w).
Proof. done. Qed.

(** ** The freshness token *)

(** C10: on every conditional fetch that gets any HTTP response, whatever
    its status and whatever happens to its body afterwards (a 304, a body
    that cannot be read, a body the callback rejects, a failed commit), the
    scheme's stored token is overwritten with the value of the scheme's
    header in that response, and the scheme stays the implementation it
    was; a response that omits the header resets the token to the empty
    string. The scheme [checkUpdates] hands back to the loop is that one. *)
Theorem token_overwritten_by_every_response (c : urlcache) (o : CycleOracle) (s : cacheScheme) (w : World) (resp : http.Response) :
  getAnswer o = inl resp →
  let s' := (updateFromWeb c o s w).1.1 in
  s' = onResponse s resp
  ∧ kindOf s' = kindOf s
  ∧ tokenOf s' = http.Get (http.RespHeader resp) <$> responseHeaderOf s
  ∧ (∀ h, responseHeaderOf s = Some h →
          http.RespHeader resp !! h = None → tokenOf s' = Some "")
  ∧ (∀ TimeFormat d, (checkUpdates TimeFormat c o d (Some s) w).1 = Some s').
Proof.
  intros H s'. subst s'. rewrite (updateFromWeb_scheme _ _ _ _ _ H).
  repeat split.
  - apply kindOf_onResponse.
  - by destruct s.
  - intros h Hh Hnone. destruct s; simpl in *; simplify_eq;
      unfold http.Get; by rewrite Hnone.
  - intros TimeFormat d. rewrite checkUpdates_established. simpl.
    by rewrite (updateFromWeb_scheme _ _ _ _ _ H).
Qed.

Lemma token_overwritten_by_every_response_witness :
  getAnswer (Examples.smooth Examples.unreachable (inl Examples.unchanged))
  = inl Examples.unchanged
  ∧ tokenOf (updateFromWeb (Examples.cache Examples.accept)
               (Examples.smooth Examples.unreachable (inl Examples.unchanged))
               (etagScheme "v1") Examples.cached).1.1 = Some "".
Proof.
  split; [reflexivity|].
  pose proof (token_overwritten_by_every_response
                (Examples.cache Examples.accept)
                (Examples.smooth Examples.unreachable (inl Examples.unchanged))
                (etagScheme "v1") Examples.cached Examples.unchanged eq_refl)
    as (_ & _ & _ & Hreset & _).
  apply (Hreset etagHeader); reflexivity.
Defined.

(** C9: for every scheme and every stored token (one equal to the token of
    the cycle before is no exception) [prepareRequest] puts the token in
    the scheme's conditional header (the no-op scheme has none and leaves
    the request as it is), and the request is sent: it is the first thing
    [updateFromWeb] does, for every scheme, world and environment. Nothing
    is held back locally either: unless the server answers 304, a body that
    can be read reaches the callback. *)
Theorem request_always_prepared_and_sent (c : urlcache) (o : CycleOracle) (s : cacheScheme) (w : World) :
  (∀ h, requestHeaderOf s = Some h →
        http.ReqHeader (requestFor c s) !! h = tokenOf s)
  ∧ (requestHeaderOf s = None →
     requestFor c s = http.NewRequest http.MethodGet (url c))
  ∧ (∃ rest, trace (updateFromWeb c o s w).2
             = trace w ++ EvDo (requestFor c s) :: rest)
  ∧ (∀ resp body,
       getAnswer o = inl resp →
       http.StatusCode resp ≠ http.StatusNotModified →
       http.Body resp = inl body →
       ∃ rest, trace (updateFromWeb c o s w).2
               = trace w ++ EvDo (requestFor c s) :: EvOnUpdate body :: rest).
Proof.
  repeat split.
  - intros h Hh. destruct s; simpl in *; simplify_eq;
      unfold requestFor, http.Set_; simpl; by rewrite lookup_insert_eq.
  - intros Hh. by destruct s.
  - apply updateFromWeb_sends.
  - intros resp body. apply updateFromWeb_delivers.
Qed.

Lemma request_always_prepared_and_sent_witness :
  http.ReqHeader (requestFor (Examples.cache Examples.accept) (etagScheme "v2"))
    !! ifNoneMatchHeader = Some "v2"
  ∧ ∃ rest,
      trace (updateFromWeb (Examples.cache Examples.accept)
               (Examples.smooth Examples.unreachable (inl Examples.tagged))
               (etagScheme "v2") Examples.cached).2
      = trace Examples.cached
        ++ EvDo (requestFor (Examples.cache Examples.accept) (etagScheme "v2"))
        :: EvOnUpdate Examples.new_bytes :: rest.
Proof.
  pose proof (request_always_prepared_and_sent
                (Examples.cache Examples.accept)
                (Examples.smooth Examples.unreachable (inl Examples.tagged))
                (etagScheme "v2") Examples.cached)
    as (Hhdr & _ & _ & Hcb).
  split.
  - apply (Hhdr ifNoneMatchHeader). reflexivity.
  - apply (Hcb Examples.tagged Examples.new_bytes).
    + reflexivity.
    + vm_compute. lia.
    + reflexivity.
Defined.

(** ** One iteration of the loop *)

(** C3: in a poll cycle with an established scheme whose conditional fetch
    is answered 304, the loop sends the request and goes to sleep for the
    interval: the callback is not invoked, the disk is not touched. *)
Theorem not_modified_cycle_only_sleeps (TimeFormat : Time → string) (c : urlcache) (o : CycleOracle) (d : Time) (s : cacheScheme) (w : World) (resp : http.Response) :
  getAnswer o = inl resp →
  http.StatusCode resp = http.StatusNotModified →
  let r := keepCurrentFrom TimeFormat c d (Some s) [o] w in
  trace r.2 = trace w ++ [EvDo (requestFor c s); EvSleep (checkInterval c)]
  ∧ fs r.2 = fs w
  ∧ disk_log r.2 = disk_log w
  ∧ r.1 = Some (onResponse s resp).
Proof.
  intros H Hst.
  rewrite keepCurrentFrom_cons, keepCurrentFrom_nil, checkUpdates_established.
  rewrite (updateFromWeb_not_modified _ _ _ _ _ H Hst).
  simpl. by rewrite <- app_assoc.
Qed.

Lemma not_modified_cycle_only_sleeps_witness :
  trace (keepCurrentFrom Examples.httpDate (Examples.cache Examples.accept) 0
           (Some (etagScheme "v2"))
           [Examples.smooth Examples.unreachable (inl Examples.unchanged)]
           Examples.cached).2
  = [EvDo (requestFor (Examples.cache Examples.accept) (etagScheme "v2"));
     EvSleep 50000000].
Proof.
  apply (not_modified_cycle_only_sleeps Examples.httpDate
           (Examples.cache Examples.accept)
           (Examples.smooth Examples.unreachable (inl Examples.unchanged))
           0 (etagScheme "v2") Examples.cached Examples.unchanged);
    reflexivity.
Defined.

(** ** A callback that fails *)

(** C1, as the specification states it, at a concrete cycle: the scheme
    holds a modification date, the server answers with a newer one and a
    body, the callback rejects the body. The cache file is as it was, but
    the stored token is not: it is already the date of the response. *)
Lemma callback_error_token_advances :
  let c := Examples.cache Examples.reject in
  let o := Examples.smooth Examples.unreachable (inl Examples.fresh) in
  let s := lastModifiedScheme "Mon, 01 Jan 2024 00:00:00 GMT" in
  let r := updateFromWeb c o s Examples.cached in
  r.1.2 = Some (CallbackError "cannot parse")
  ∧ fs r.2 = fs Examples.cached
  ∧ tokenOf s = Some "Mon, 01 Jan 2024 00:00:00 GMT"
  ∧ tokenOf r.1.1 = Some "Tue, 02 Jan 2024 00:00:00 GMT"
  ∧ tokenOf r.1.1 ≠ tokenOf s.
Proof. vm_compute. repeat split; congruence. Qed.

(** C1, amended: in every refresh cycle in which the fetched body is
    delivered to the callback and the callback returns an error, the cycle
    stops there with that error and the disk exactly as it was: after the
    request and the callback nothing else happens, no file is created,
    written, removed or renamed. The stored token is the one [onResponse]
    took from the response before the callback ran. *)
Theorem callback_error_leaves_cache_file (c : urlcache) (o : CycleOracle) (s : cacheScheme) (w : World) (resp : http.Response) (body : bytes) (e : error) :
  getAnswer o = inl resp →
  http.StatusCode resp ≠ http.StatusNotModified →
  http.Body resp = inl body →
  onUpdate c body = Some e →
  let r := updateFromWeb c o s w in
  r.1.2 = Some e
  ∧ fs r.2 = fs w
  ∧ disk_log r.2 = disk_log w
  ∧ trace r.2 = trace w ++ [EvDo (requestFor c s); EvOnUpdate body]
  ∧ r.1.1 = onResponse s resp.
Proof.
  intros H Hst Hb Hcb.
  by rewrite (updateFromWeb_callback_error _ _ _ _ _ _ _ H Hst Hb Hcb).
Qed.

Lemma callback_error_leaves_cache_file_witness :
  let c := Examples.cache Examples.reject in
  let o := Examples.smooth Examples.unreachable (inl Examples.fresh) in
  let r := updateFromWeb c o (etagScheme "v1") Examples.cached in
  fs r.2 = fs Examples.cached ∧ r.1.1 = etagScheme "v2".
Proof.
  pose proof (callback_error_leaves_cache_file
                (Examples.cache Examples.reject)
                (Examples.smooth Examples.unreachable (inl Examples.fresh))
                (etagScheme "v1") Examples.cached Examples.fresh
                Examples.new_bytes (CallbackError "cannot parse")
                eq_refl ltac:(vm_compute; lia) eq_refl eq_refl)
    as (_ & Hfs & _ & _ & Hs).
  split; [exact Hfs | exact Hs].
Defined.

(** ** Replacing the cache file *)

(** C2, as the specification states it, at two concrete successful cycles
    over a disk that already holds a cache file. With the temporary file:
    the old file is removed before the new one is renamed onto its path,
    and in between there is no file at the cache path. Without it (the
    temporary file cannot be created): the cache file is opened with
    truncation and is empty until the write. *)
Lemma replacement_shows_missing_and_empty_file :
  let c := Examples.cache Examples.accept in
  let seen (r : cacheScheme * option error * World) :=
    (λ disk, contentAt disk (cacheFile c)) <$> disk_log r.2 in
  let r1 := updateFromWeb c (Examples.smooth Examples.unreachable (inl Examples.fresh))
              (etagScheme "v1") Examples.cached in
  let r2 := updateFromWeb c (Examples.no_temp Examples.unreachable (inl Examples.fresh))
              (etagScheme "v1") Examples.cached in
  r1.1.2 = None
  ∧ seen r1 = [Some Examples.old_bytes; Some Examples.old_bytes; None;
               Some Examples.new_bytes]
  ∧ r2.1.2 = None
  ∧ seen r2 = [Some []; Some Examples.new_bytes].
Proof. vm_compute. repeat split. Qed.

(** C2, amended: after every successful refresh cycle the file at the
    cache path holds exactly the bytes fetched in that cycle. On the way
    there, every state of the disk shows at the cache path the complete
    previous content, or the complete new content, or no file (between the
    removal of the old file and the rename of the temporary one), or an
    empty file (when the temporary file could not be written and the cache
    file is truncated and written in place). *)
Theorem refresh_commits_fetched_bytes (c : urlcache) (o : CycleOracle) (s : cacheScheme) (w : World) (resp : http.Response) (body : bytes) :
  getAnswer o = inl resp →
  http.StatusCode resp ≠ http.StatusNotModified →
  http.Body resp = inl body →
  (updateFromWeb c o s w).1.2 = None →
  let w' := (updateFromWeb c o s w).2 in
  contentAt (fs w') (cacheFile c) = Some body
  ∧ ∃ states,
      disk_log w' = disk_log w ++ states
      ∧ Forall (λ disk,
                  contentAt disk (cacheFile c) = contentAt (fs w) (cacheFile c)
                  ∨ contentAt disk (cacheFile c) = Some body
                  ∨ contentAt disk (cacheFile c) = None
                  ∨ contentAt disk (cacheFile c) = Some [])
               states.
Proof.
  intros H Hst Hb. pose proof (temp_name_differs (cacheFile c)) as Htmp.
  enter_updateFromWeb. rewrite H. destruct (decide _); [done|].
  rewrite Hb. run_io.
  destruct (onUpdate c body) eqn:Hcb; run_io; [done|].
  repeat (split_oracle; run_io; try done); intros _.
  all: split; [unfold contentAt; by simplify_map_eq|].
  all: eexists; split; [by rewrite <- ?app_assoc|].
  all: repeat (apply Forall_cons; split); try apply Forall_nil.
  all: unfold contentAt; simplify_map_eq; auto.
Qed.

Lemma refresh_commits_fetched_bytes_witness :
  contentAt
    (fs (updateFromWeb (Examples.cache Examples.accept)
           (Examples.smooth Examples.unreachable (inl Examples.fresh))
           (etagScheme "v1") Examples.cached).2)
    (cacheFile (Examples.cache Examples.accept))
  = Some Examples.new_bytes.
Proof.
  apply (refresh_commits_fetched_bytes (Examples.cache Examples.accept)
           (Examples.smooth Examples.unreachable (inl Examples.fresh))
           (etagScheme "v1") Examples.cached Examples.fresh Examples.new_bytes).
  - reflexivity.
  - vm_compute. lia.
  - reflexivity.
  - reflexivity.
Defined.

(** ** Starting from the cache file *)

(** [readInitial] only opens the cache file and, when that worked, calls
    the callback: it leaves the disk alone, sends nothing, does not sleep,
    and the date it returns is the zero time on every path. The one
    assignment to [currentDate] sits behind [file.Stat()], which is asked
    of a file that has just been closed. *)
Lemma readInitial_effect (c : urlcache) (o : StartOracle) (w : World) :
  ∃ evs,
    readInitial c o w = (zeroTime, after w evs)
    ∧ Forall (λ e, isNetwork e = false ∧ isSleep e = false) evs.
Proof.
  unfold readInitial, os_Open, readContents, os_File_Stat. run_io.
  repeat (split_oracle; run_io); rewrite <- ?app_assoc; simpl;
    eexists; (split; [reflexivity|]); by repeat constructor.
Qed.

(** C6: when a readable cache file exists and the callback accepts it,
    the callback has been given exactly the bytes of the file, once, and
    nothing has gone over the network; but the modification time of the
    file is not recorded. [readInitial] closes the file before it asks for
    its [Stat], the [Stat] of a closed file fails, and the date handed to
    the polling loop is the zero time, as it is for an absent file or a
    failed callback. *)
Theorem readInitial_baseline_always_zero (c : urlcache) (o : StartOracle) (w : World) (d : os.FileData) :
  fs w !! cacheFile c = Some d →
  openFault o = None →
  onUpdate c (os.data d) = None →
  let r := readInitial c o w in
  trace r.2 = trace w ++ [EvOpen (cacheFile c); EvOnUpdate (os.data d)]
  ∧ fs r.2 = fs w
  ∧ r.1 = zeroTime.
Proof.
  intros Hd Ho Hcb. unfold readInitial, os_Open, readContents, os_File_Stat.
  run_io. rewrite Hd, Ho. run_io. rewrite Hd. simpl. rewrite Hcb. simpl.
  by rewrite <- app_assoc.
Qed.

Lemma readInitial_baseline_always_zero_witness :
  let c := Examples.cache Examples.accept in
  let r := readInitial c Examples.calm Examples.cached in
  os.modTime <$> fs Examples.cached !! cacheFile c = Some 900
  ∧ trace r.2 = [EvOpen "var/list"; EvOnUpdate Examples.old_bytes]
  ∧ r.1 = 0.
Proof.
  split; [reflexivity|].
  pose proof (readInitial_baseline_always_zero
                (Examples.cache Examples.accept) Examples.calm Examples.cached
                {| os.data := Examples.old_bytes; os.modTime := 900 |}
                eq_refl eq_refl eq_refl) as (Htr & _ & Hdate).
  split; [exact Htr | exact Hdate].
Defined.

(** What follows from it in the first cycle: the server announces a
    Last-Modified header, the scheme is seeded with the zero time, and
    the first conditional request carries the zero time, not the time
    900 of the cache file. *)
Lemma first_request_carries_zero_time :
  let c := Examples.cache Examples.accept in
  let r := readInitial c Examples.calm Examples.cached in
  nth_error
    (trace (checkUpdates Examples.httpDate c
              (Examples.smooth (inl Examples.fresh) (inl Examples.unchanged))
              r.1 None r.2).2) 5
  = Some (EvDo (requestFor c
                  (lastModifiedScheme "Mon, 01 Jan 0001 00:00:00 GMT"))).
Proof. vm_compute. reflexivity. Qed.


(** ** Choosing the scheme *)

(** A cycle that starts without a scheme is the block that determines one
    and, when that gave a scheme, a cycle with that scheme. *)
Lemma checkUpdates_unset TimeFormat c o d w :
  checkUpdates TimeFormat c o d None w
  = let r := determineScheme TimeFormat c o d w in
    match r.1 with
    | None => (None, r.2)
    | Some s => checkUpdates TimeFormat c o d (Some s) r.2
    end.
Proof.
  unfold checkUpdates. run_io.
  by destruct (determineScheme TimeFormat c o d w) as [[s|] w'].
Qed.

Lemma determineScheme_unreachable TimeFormat c o d w err :
  headAnswer o = inr err →
  determineScheme TimeFormat c o d w
  = (None,
     after w [EvLog Info "Cache scheme unknown, issue HEAD request to determine scheme" None;
              EvHead (url c);
              EvLog Error "Unable to request modified of %v: %v" (Some err)]).
Proof.
  intros H. unfold determineScheme. run_io. rewrite H. run_io.
  by rewrite <- !app_assoc.
Qed.

(** What the block does when the HEAD request is answered: it logs that
    the scheme is unknown, sends the request, logs its choice. *)
Lemma determineScheme_answered TimeFormat c o d w headResp :
  headAnswer o = inl headResp →
  ∃ s note,
    determineScheme TimeFormat c o d w
    = (Some s,
       after w [EvLog Info "Cache scheme unknown, issue HEAD request to determine scheme" None;
                EvHead (url c); EvLog Info note None])
    ∧ s = (if decide (http.Get (http.RespHeader headResp) lastModifiedHeader ≠ "")
           then lastModifiedScheme (TimeFormat d)
           else if decide (http.Get (http.RespHeader headResp) etagHeader ≠ "")
                then etagScheme ""
                else noopScheme).
Proof.
  intros H. unfold determineScheme. run_io. rewrite H.
  repeat (split_oracle; run_io); rewrite <- !app_assoc; simpl;
    by do 2 eexists.
Qed.




(** ** The scheme over the life of the loop *)







(** ** What the caller of Open sees *)

(** A cycle of [updateFromWeb] that reports no error is one in which
    nothing failed for good: the request was answered, and either with a
    304, or with a body that could be read, that the callback accepted and
    that was committed, through the temporary file or, that failing, by
    writing the cache file in place. *)
Lemma updateFromWeb_reports_every_failure c o s w :
  (updateFromWeb c o s w).1.2 = None →
  ∃ resp,
    getAnswer o = inl resp
    ∧ (http.StatusCode resp = http.StatusNotModified
       ∨ ∃ body,
           http.Body resp = inl body
           ∧ onUpdate c body = None
           ∧ ((tmpOpenFault o = None ∧ tmpWriteShort o = None
               ∧ renameFault o = None
               ∧ (fs w !! cacheFile c = None ∨ removeFault o = None
                  ∨ removeFault o = Some ErrNotExist))
              ∨ ((is_Some (tmpOpenFault o) ∨ is_Some (tmpWriteShort o))
                 ∧ destOpenFault o = None ∧ destWriteShort o = None))).
Proof.
  pose proof (temp_name_differs (cacheFile c)) as Htmp.
  enter_updateFromWeb.
  destruct (getAnswer o) as [resp|err]; run_io; [|done].
  intros Hok. exists resp. split; [done|].
  destruct (decide _) as [|Hst]; [by left|]. right.
  destruct (http.Body resp) as [body|err]; run_io; [|done].
  exists body. split; [done|]. revert Hok.
  repeat (split_oracle; run_io; try done); intros _; simplify_map_eq;
    naive_solver.
Qed.

Lemma Open_result o url cf ci cb w :
  (Open o url cf ci cb w).1
  = match mkdirFault o with
    | Some f =>
        if decide ((filepath.Split cf).1 ≠ "")
        then if negb (os.IsExist (PathError "mkdir" (filepath.Split cf).1 f))
             then Some (Errorf "Unable to create cache dir %v: %v"
                          (PathError "mkdir" (filepath.Split cf).1 f))
             else None
        else None
    | None => None
    end.
Proof.
  unfold Open, os_MkdirAll. destruct (filepath.Split cf) as [dir file].
  run_io.
  destruct (decide (dir ≠ "")), (mkdirFault o) as [f|]; run_io;
    try destruct f; run_io;
    try done; by destruct (readInitial _ o _).
Qed.

(** C8: [Open] returns an error only when creating the directory of the
    cache file fails (with an error other than "already exists"), and then
    it does. Nothing that goes wrong later reaches the caller: what [Open]
    returned is settled before the first cycle, a failed HEAD request is
    logged as an error and the cycle ends with the scheme still unset, and
    every error [updateFromWeb] reports (the fetch, reading the body, the
    callback, the commit) is logged as an error by [checkUpdates], which
    hands the scheme back to the loop and nothing else. So for a URL nobody
    answers, [Open] succeeds all the same. *)
Theorem Open_fails_only_on_mkdir (o : StartOracle) (u cf : string) (ci : Duration) (cb : bytes → option error) (w : World) :
  let dir := (filepath.Split cf).1 in
  (∀ e, (Open o u cf ci cb w).1 = Some e →
        ∃ f, dir ≠ "" ∧ mkdirFault o = Some f ∧ f ≠ ErrExist
             ∧ e = Errorf "Unable to create cache dir %v: %v"
                     (PathError "mkdir" dir f))
  ∧ (∀ f, dir ≠ "" → mkdirFault o = Some f → f ≠ ErrExist →
          (Open o u cf ci cb w).1
          = Some (Errorf "Unable to create cache dir %v: %v"
                    (PathError "mkdir" dir f)))
  ∧ (∀ TimeFormat os,
       (process TimeFormat o u cf ci cb os w).1 = (Open o u cf ci cb w).1)
  ∧ (∀ TimeFormat c oc d w1 err,
       headAnswer oc = inr err →
       checkUpdates TimeFormat c oc d None w1
       = (None,
          after w1 [EvLog Info "Cache scheme unknown, issue HEAD request to determine scheme" None;
                    EvHead (url c);
                    EvLog Error "Unable to request modified of %v: %v" (Some err)]))
  ∧ (∀ TimeFormat c oc d s w1 e,
       (updateFromWeb c oc s w1).1.2 = Some e →
       checkUpdates TimeFormat c oc d (Some s) w1
       = (Some (updateFromWeb c oc s w1).1.1,
          after (updateFromWeb c oc s w1).2
            [EvLog Error "Unable to update from web: %v" (Some e)])).
Proof.
  intros dir. split; [|split; [|split; [|split]]].
  - intros e. rewrite Open_result. fold dir.
    destruct (mkdirFault o) as [f|]; [|done].
    destruct (decide (dir ≠ "")); [|done].
    destruct f; simpl; try done; intros [= <-]; by eexists.
  - intros f Hdir Hf Hne. rewrite Open_result. fold dir. rewrite Hf.
    rewrite decide_True by done. by destruct f.
  - intros TimeFormat os. unfold process. run_io.
    destruct (Open o u cf ci cb w) as [err w1]. simpl.
    destruct (spawned w1) as [|g gs]; [done|].
    by destruct (keepCurrent TimeFormat (g_cache g) (g_initialDate g) os w1).
  - intros TimeFormat c oc d w1 err H. rewrite checkUpdates_unset.
    by rewrite (determineScheme_unreachable _ _ _ _ _ _ H).
  - intros TimeFormat c oc d s w1 e H. rewrite checkUpdates_established.
    simpl. by rewrite H.
Qed.

Lemma Open_fails_only_on_mkdir_witness :
  (Open {| mkdirFault := Some ErrPermission; openFault := None |}
     "http://not-exist" "inter/cachefile" 50000000 Examples.accept
     Examples.bare).1
  = Some (Errorf "Unable to create cache dir %v: %v"
            (PathError "mkdir" "inter/" ErrPermission))
  ∧ (Open Examples.calm "http://not-exist" "inter/cachefile" 50000000
       Examples.accept Examples.bare).1 = None.
Proof.
  split.
  - pose proof (Open_fails_only_on_mkdir
                  {| mkdirFault := Some ErrPermission; openFault := None |}
                  "http://not-exist" "inter/cachefile" 50000000
                  Examples.accept Examples.bare) as (_ & Hfail & _).
    apply (Hfail ErrPermission).
    + vm_compute. congruence.
    + reflexivity.
    + congruence.
  - reflexivity.
Defined.

(** The scenario of a URL nobody answers, from the first HEAD request on:
    the loop never gets a scheme, never calls the callback, and creates no
    cache file; it logs, sleeps and tries again. *)
Lemma unreachable_url_changes_nothing TimeFormat c d os :
  Forall (λ o, ∃ err, headAnswer o = inr err) os →
  ∀ w,
    let r := keepCurrent TimeFormat c d os w in
    r.1 = None
    ∧ fs r.2 = fs w
    ∧ disk_log r.2 = disk_log w
    ∧ ∃ evs, trace r.2 = trace w ++ evs
             ∧ Forall (λ e, isCallback e = false
                            ∧ writesTo (cacheFile c) e = false) evs.
Proof.
  unfold keepCurrent. induction 1 as [|o os [err Herr] _ IH]; intros w.
  - rewrite keepCurrentFrom_nil. simpl. repeat split.
    exists []. by rewrite app_nil_r.
  - rewrite keepCurrentFrom_cons, checkUpdates_unset.
    rewrite (determineScheme_unreachable _ _ _ _ _ _ Herr). simpl.
    match goal with
    | |- context [keepCurrentFrom _ _ _ None os ?w1] =>
        destruct (IH w1) as (Hs & Hfs & Hlog & evs & Htr & Hevs)
    end.
    repeat split; [done..|].
    eexists. split.
    + rewrite Htr. simpl. rewrite <- !app_assoc. reflexivity.
    + simpl. by repeat constructor.
Qed.

(** ** The scenario of the package's ETag test *)

(** The server's tag is "a", then "aa", then stays "aa": the first fetch
    and the fetch after the change reach the callback, the two polls after
    that are answered 304 and do not. The requests carry the tag of the
    answer before: none at first, then "a", then "aa" twice. *)
Example etag_scenario :
  let body (t : bytes) (tag : string) : http.Response :=
    {| http.StatusCode := http.StatusOK;
       http.RespHeader := {[ "ETag" := tag ]};
       http.Body := inl t |} in
  let same (tag : string) : http.Response :=
    {| http.StatusCode := http.StatusNotModified;
       http.RespHeader := {[ "ETag" := tag ]};
       http.Body := inl [] |} in
  let a := [Byte.x61] in
  let aa := [Byte.x61; Byte.x61] in
  let c := Examples.cache Examples.accept in
  let r := keepCurrent Examples.httpDate c zeroTime
             [Examples.smooth (inl (body a "a")) (inl (body a "a"));
              Examples.smooth Examples.unreachable (inl (body aa "aa"));
              Examples.smooth Examples.unreachable (inl (same "aa"));
              Examples.smooth Examples.unreachable (inl (same "aa"))]
             Examples.bare in
  r.1 = Some (etagScheme "aa")
  ∧ filter (λ e, isCallback e = true) (trace r.2) = [EvOnUpdate a; EvOnUpdate aa]
  ∧ filter (λ e, isNetwork e = true) (trace r.2)
    = [EvHead (url c);
       EvDo (requestFor c (etagScheme ""));
       EvDo (requestFor c (etagScheme "a"));
       EvDo (requestFor c (etagScheme "aa"));
       EvDo (requestFor c (etagScheme "aa"))]
  ∧ contentAt (fs r.2) (cacheFile c) = Some aa.
Proof. vm_compute. repeat split. Qed.

(** * Further properties of the package *)

(** ** The schemes *)

(** [prepareRequest] changes nothing of a request but the scheme's own
    conditional header: the method, the URL and every other header are
    those of the request it was given. *)
Theorem prepareRequest_frame (s : cacheScheme) (req : http.Request) :
  http.Method (prepareRequest s req) = http.Method req
  ∧ http.URL (prepareRequest s req) = http.URL req
  ∧ (∀ key, requestHeaderOf s ≠ Some key →
            http.ReqHeader (prepareRequest s req) !! key
            = http.ReqHeader req !! key).
Proof.
  destruct s; simpl; repeat split; intros key Hkey; try done;
    unfold http.Set_; rewrite lookup_insert_ne; congruence.
Qed.

Lemma prepareRequest_frame_witness :
  http.ReqHeader
    (prepareRequest (etagScheme "v2")
       {| http.Method := "GET"; http.URL := "http://example.com/list";
          http.ReqHeader := {[ "Accept" := "text/plain" ]} |})
    !! "Accept"
  = Some "text/plain".
Proof.
  pose proof (prepareRequest_frame (etagScheme "v2")
                {| http.Method := "GET"; http.URL := "http://example.com/list";
                   http.ReqHeader := {[ "Accept" := "text/plain" ]} |})
    as (_ & _ & Hkeep).
  rewrite (Hkeep "Accept"); [reflexivity|]. vm_compute. congruence.
Defined.

(** What a scheme has taken from a response is what it puts in the next
    request: after [onResponse], the conditional header [prepareRequest]
    sets is the value (possibly empty) of the scheme's header in that
    response, whatever the scheme held before. *)
Theorem next_request_echoes_validator (s : cacheScheme) (resp : http.Response) (req : http.Request) (h k : string) :
  responseHeaderOf s = Some h →
  requestHeaderOf s = Some k →
  http.ReqHeader (prepareRequest (onResponse s resp) req) !! k
  = Some (http.Get (http.RespHeader resp) h).
Proof.
  intros Hh Hk. destruct s; simpl in *; simplify_eq;
    unfold http.Set_; by rewrite lookup_insert_eq.
Qed.

Lemma next_request_echoes_validator_witness :
  http.ReqHeader
    (prepareRequest (onResponse (etagScheme "v1") Examples.fresh)
       (http.NewRequest http.MethodGet "http://example.com/list"))
    !! ifNoneMatchHeader
  = Some (http.Get (http.RespHeader Examples.fresh) etagHeader).
Proof.
  apply (next_request_echoes_validator (etagScheme "v1") Examples.fresh
           (http.NewRequest http.MethodGet "http://example.com/list")
           etagHeader ifNoneMatchHeader);
    reflexivity.
Defined.

(** ** One cycle, step by step *)

(** When the GET request gets no answer, the cycle changes nothing: the
    scheme and its token, the disk and the clock are as before, the
    callback is not called. The error is logged, with the prefix "Unable
    to update from web" put on it twice, once by [updateFromWeb] and once
    by [checkUpdates]. *)
Theorem transport_error_changes_nothing (TimeFormat : Time → string) (c : urlcache) (o : CycleOracle) (d : Time) (s : cacheScheme) (w : World) (err : error) :
  getAnswer o = inr err →
  let r := checkUpdates TimeFormat c o d (Some s) w in
  r.1 = Some s
  ∧ fs r.2 = fs w
  ∧ disk_log r.2 = disk_log w
  ∧ now r.2 = now w
  ∧ trace r.2
    = trace w
      ++ [EvDo (requestFor c s);
          EvLog Error "Unable to update from web: %v"
            (Some (Errorf "Unable to update from web: %v" err))].
Proof.
  intros H. rewrite checkUpdates_established.
  rewrite (updateFromWeb_transport_error _ _ _ _ _ H). simpl.
  by rewrite <- app_assoc.
Qed.

Lemma transport_error_changes_nothing_witness :
  (checkUpdates Examples.httpDate (Examples.cache Examples.accept)
     (Examples.smooth Examples.unreachable Examples.unreachable) 0
     (Some (etagScheme "v1")) Examples.cached).1
  = Some (etagScheme "v1").
Proof.
  apply (transport_error_changes_nothing Examples.httpDate
           (Examples.cache Examples.accept)
           (Examples.smooth Examples.unreachable Examples.unreachable) 0
           (etagScheme "v1") Examples.cached (TransportError "no such host")).
  reflexivity.
Defined.

(** The order of a cycle: the request, then at most one call of the
    callback, then the disk. Nothing is done to the disk before the
    callback has been called, and nothing at all when the callback was
    not called or rejected the bytes: the disk is then as it was. *)
Theorem disk_changes_only_after_accepted_callback (c : urlcache) (o : CycleOracle) (s : cacheScheme) (w : World) :
  let r := updateFromWeb c o s w in
  (trace r.2 = trace w ++ [EvDo (requestFor c s)] ∧ fs r.2 = fs w)
  ∨ ∃ body rest,
      trace r.2 = trace w ++ EvDo (requestFor c s) :: EvOnUpdate body :: rest
      ∧ Forall (λ e, isCallback e = false ∧ isNetwork e = false) rest
      ∧ (is_Some (onUpdate c body) → rest = [] ∧ fs r.2 = fs w).
Proof.
  enter_updateFromWeb.
  destruct (getAnswer o) as [resp|err]; run_io; [|by left].
  destruct (decide _); run_io; [by left|].
  destruct (http.Body resp) as [body|err]; run_io; [|by left].
  right. exists body.
  repeat (split_oracle; run_io); rewrite <- ?app_assoc; simpl;
    eexists; (split; [reflexivity|]);
    (split; [by repeat constructor|]); try done; by intros [? [=]].
Qed.

Lemma disk_changes_only_after_accepted_callback_witness :
  let c := Examples.cache Examples.reject in
  let o := Examples.smooth Examples.unreachable (inl Examples.fresh) in
  let r := updateFromWeb c o (etagScheme "v1") Examples.cached in
  (trace r.2 = trace Examples.cached ++ [EvDo (requestFor c (etagScheme "v1"))]
   ∧ fs r.2 = fs Examples.cached)
  ∨ ∃ body rest,
      trace r.2
      = trace Examples.cached
        ++ EvDo (requestFor c (etagScheme "v1")) :: EvOnUpdate body :: rest
      ∧ Forall (λ e, isCallback e = false ∧ isNetwork e = false) rest
      ∧ (is_Some (onUpdate c body) → rest = [] ∧ fs r.2 = fs Examples.cached).
Proof.
  apply (disk_changes_only_after_accepted_callback
           (Examples.cache Examples.reject)
           (Examples.smooth Examples.unreachable (inl Examples.fresh))
           (etagScheme "v1") Examples.cached).
Defined.

(** ** How a commit ends *)

Ltac enter_commit Hd Hcb :=
  unfold delivered in Hd; enter_updateFromWeb;
  destruct (getAnswer _) as [?resp|?err]; [|done];
  destruct (decide _); [done|];
  destruct (http.Body _) as [?body|?err]; [|done];
  simplify_eq; run_io; rewrite Hcb; run_io.

(** A commit through the temporary file that succeeds leaves the fetched
    bytes at the cache path and no file at the temporary name, whatever
    was at either name before. *)
Theorem commit_consumes_temp_file (c : urlcache) (o : CycleOracle) (s : cacheScheme) (w : World) (body : bytes) :
  delivered o = Some body →
  onUpdate c body = None →
  tmpOpenFault o = None →
  tmpWriteShort o = None →
  (updateFromWeb c o s w).1.2 = None →
  let r := updateFromWeb c o s w in
  contentAt (fs r.2) (cacheFile c) = Some body
  ∧ fs r.2 !! tmpFileOf c = None.
Proof.
  intros Hd Hcb Hto Htw. unfold tmpFileOf.
  pose proof (temp_name_differs (cacheFile c)) as Htmp.
  enter_commit Hd Hcb. rewrite Hto, Htw. run_io.
  repeat (split_oracle; run_io; try done); intros _;
    unfold contentAt; by simplify_map_eq.
Qed.

Lemma commit_consumes_temp_file_witness :
  let c := Examples.cache Examples.accept in
  let r := updateFromWeb c (Examples.smooth Examples.unreachable (inl Examples.fresh))
             (etagScheme "v1") Examples.cached in
  contentAt (fs r.2) (cacheFile c) = Some Examples.new_bytes
  ∧ fs r.2 !! tmpFileOf c = None.
Proof.
  apply (commit_consumes_temp_file (Examples.cache Examples.accept)
           (Examples.smooth Examples.unreachable (inl Examples.fresh))
           (etagScheme "v1") Examples.cached Examples.new_bytes);
    reflexivity.
Defined.

(** When the temporary file has been written and the old cache file
    removed, and the rename then fails, the cycle reports the error of the
    rename and there is no file at the cache path any more, whether or not
    there was one before; the fetched bytes are in the temporary file. *)
Theorem failed_rename_loses_cache_file (c : urlcache) (o : CycleOracle) (s : cacheScheme) (w : World) (body : bytes) (f : OsError) :
  delivered o = Some body →
  onUpdate c body = None →
  tmpOpenFault o = None →
  tmpWriteShort o = None →
  removeFault o = None →
  renameFault o = Some f →
  let r := updateFromWeb c o s w in
  r.1.2 = Some (Errorf "Unable to move tmpFile to cacheFile: %v"
                  (PathError "rename" (tmpFileOf c) f))
  ∧ fs r.2 !! cacheFile c = None
  ∧ contentAt (fs r.2) (tmpFileOf c) = Some body.
Proof.
  intros Hd Hcb Hto Htw Hrm Hrn. unfold tmpFileOf.
  pose proof (temp_name_differs (cacheFile c)) as Htmp.
  enter_commit Hd Hcb. rewrite Hto, Htw. run_io. rewrite Hrm, Hrn.
  repeat (split_oracle; run_io; try done);
    unfold contentAt; by simplify_map_eq.
Qed.

Lemma failed_rename_loses_cache_file_witness :
  let c := Examples.cache Examples.accept in
  let o := {| headAnswer := Examples.unreachable;
              getAnswer := inl Examples.fresh;
              tmpOpenFault := None; tmpWriteShort := None;
              destOpenFault := None; destWriteShort := None;
              removeFault := None; renameFault := Some ErrPermission |} in
  let r := updateFromWeb c o (etagScheme "v1") Examples.cached in
  contentAt (fs Examples.cached) (cacheFile c) = Some Examples.old_bytes
  ∧ fs r.2 !! cacheFile c = None.
Proof.
  split; [reflexivity|].
  pose proof (failed_rename_loses_cache_file (Examples.cache Examples.accept)
                {| headAnswer := Examples.unreachable;
                   getAnswer := inl Examples.fresh;
                   tmpOpenFault := None; tmpWriteShort := None;
                   destOpenFault := None; destWriteShort := None;
                   removeFault := None; renameFault := Some ErrPermission |}
                (etagScheme "v1") Examples.cached Examples.new_bytes
                ErrPermission eq_refl eq_refl eq_refl eq_refl eq_refl eq_refl)
    as (_ & Hgone & _).
  exact Hgone.
Defined.

(** When the old cache file cannot be removed (for a reason other than
    its absence), the cycle reports that error, the rename is not
    attempted, and the old file stays as it was; the fetched bytes are
    left in the temporary file. *)
Theorem failed_remove_keeps_old_file (c : urlcache) (o : CycleOracle) (s : cacheScheme) (w : World) (body : bytes) (old : os.FileData) (f : OsError) :
  delivered o = Some body →
  onUpdate c body = None →
  tmpOpenFault o = None →
  tmpWriteShort o = None →
  fs w !! cacheFile c = Some old →
  removeFault o = Some f →
  f ≠ ErrNotExist →
  let r := updateFromWeb c o s w in
  r.1.2 = Some (Errorf "Unable to remove old cache file: %v"
                  (PathError "remove" (cacheFile c) f))
  ∧ fs r.2 !! cacheFile c = Some old
  ∧ contentAt (fs r.2) (tmpFileOf c) = Some body
  ∧ trace r.2
    = trace w
      ++ [EvDo (requestFor c s); EvOnUpdate body; EvOpenFile (tmpFileOf c);
          EvWrite (tmpFileOf c) body; EvRemove (cacheFile c)].
Proof.
  intros Hd Hcb Hto Htw Hold Hrm Hne. unfold tmpFileOf.
  pose proof (temp_name_differs (cacheFile c)) as Htmp.
  enter_commit Hd Hcb. rewrite Hto, Htw. run_io.
  rewrite !lookup_insert_ne by done. rewrite Hold, Hrm. run_io.
  destruct f; try done; run_io; unfold contentAt; simplify_map_eq;
    by rewrite <- !app_assoc.
Qed.

Lemma failed_remove_keeps_old_file_witness :
  let c := Examples.cache Examples.accept in
  let o := {| headAnswer := Examples.unreachable;
              getAnswer := inl Examples.fresh;
              tmpOpenFault := None; tmpWriteShort := None;
              destOpenFault := None; destWriteShort := None;
              removeFault := Some ErrPermission; renameFault := None |} in
  let r := updateFromWeb c o (etagScheme "v1") Examples.cached in
  contentAt (fs r.2) (cacheFile c) = Some Examples.old_bytes
  ∧ contentAt (fs r.2) (tmpFileOf c) = Some Examples.new_bytes.
Proof.
  pose proof (failed_remove_keeps_old_file (Examples.cache Examples.accept)
                {| headAnswer := Examples.unreachable;
                   getAnswer := inl Examples.fresh;
                   tmpOpenFault := None; tmpWriteShort := None;
                   destOpenFault := None; destWriteShort := None;
                   removeFault := Some ErrPermission; renameFault := None |}
                (etagScheme "v1") Examples.cached Examples.new_bytes
                {| os.data := Examples.old_bytes; os.modTime := 900 |}
                ErrPermission eq_refl eq_refl eq_refl eq_refl eq_refl eq_refl
                ltac:(congruence))
    as (_ & Hold & Htmp & _).
  split; [|exact Htmp]. unfold contentAt. by rewrite Hold.
Defined.

(** When the temporary file could not be written and the cache file
    cannot be opened for writing either, the cycle reports that error and
    the cache file is as it was. *)
Theorem fallback_open_failure_keeps_file (c : urlcache) (o : CycleOracle) (s : cacheScheme) (w : World) (body : bytes) (f : OsError) :
  delivered o = Some body →
  onUpdate c body = None →
  is_Some (tmpOpenFault o) ∨ is_Some (tmpWriteShort o) →
  destOpenFault o = Some f →
  let r := updateFromWeb c o s w in
  r.1.2 = Some (Errorf "Unable to open cache file: %v"
                  (PathError "open" (cacheFile c) f))
  ∧ fs r.2 !! cacheFile c = fs w !! cacheFile c.
Proof.
  intros Hd Hcb Htmp Hdo.
  pose proof (temp_name_differs (cacheFile c)) as Hne.
  enter_commit Hd Hcb.
  destruct Htmp as [[e He]|[k Hk]].
  - rewrite He. run_io. by rewrite Hdo.
  - destruct (tmpOpenFault o); run_io; rewrite ?Hk; run_io; rewrite Hdo;
      run_io; by simplify_map_eq.
Qed.

Lemma fallback_open_failure_keeps_file_witness :
  let c := Examples.cache Examples.accept in
  let o := {| headAnswer := Examples.unreachable;
              getAnswer := inl Examples.fresh;
              tmpOpenFault := Some ErrPermission; tmpWriteShort := None;
              destOpenFault := Some ErrPermission; destWriteShort := None;
              removeFault := None; renameFault := None |} in
  let r := updateFromWeb c o (etagScheme "v1") Examples.cached in
  fs r.2 !! cacheFile c = fs Examples.cached !! cacheFile c.
Proof.
  pose proof (fallback_open_failure_keeps_file (Examples.cache Examples.accept)
                {| headAnswer := Examples.unreachable;
                   getAnswer := inl Examples.fresh;
                   tmpOpenFault := Some ErrPermission; tmpWriteShort := None;
                   destOpenFault := Some ErrPermission; destWriteShort := None;
                   removeFault := None; renameFault := None |}
                (etagScheme "v1") Examples.cached Examples.new_bytes
                ErrPermission eq_refl eq_refl
                (or_introl (ex_intro _ ErrPermission eq_refl)) eq_refl)
    as (_ & Hsame).
  exact Hsame.
Defined.

(** When the temporary file could not be written and the write to the
    cache file itself stops after [n] bytes, the cycle reports the error
    and the cache file holds the first [n] bytes of the fetched body: the
    previous content is gone and the new one is incomplete. *)
Theorem fallback_short_write_truncates_file (c : urlcache) (o : CycleOracle) (s : cacheScheme) (w : World) (body : bytes) (n : nat) :
  delivered o = Some body →
  onUpdate c body = None →
  is_Some (tmpOpenFault o) ∨ is_Some (tmpWriteShort o) →
  destOpenFault o = None →
  destWriteShort o = Some n →
  let r := updateFromWeb c o s w in
  r.1.2 = Some (Errorf "Unable to copy contents from web to temp file: %v"
                  (PathError "write" (cacheFile c) ErrIO))
  ∧ contentAt (fs r.2) (cacheFile c) = Some (take n body).
Proof.
  intros Hd Hcb Htmp Hdo Hdw.
  pose proof (temp_name_differs (cacheFile c)) as Hne.
  enter_commit Hd Hcb.
  destruct Htmp as [[e He]|[m Hm]].
  - rewrite He. run_io. rewrite Hdo. run_io. rewrite Hdw. run_io.
    unfold contentAt. by simplify_map_eq.
  - destruct (tmpOpenFault o); run_io; rewrite ?Hm; run_io; rewrite Hdo;
      run_io; rewrite Hdw; run_io; unfold contentAt; by simplify_map_eq.
Qed.

Lemma fallback_short_write_truncates_file_witness :
  let c := Examples.cache Examples.accept in
  let o := {| headAnswer := Examples.unreachable;
              getAnswer := inl Examples.fresh;
              tmpOpenFault := Some ErrPermission; tmpWriteShort := None;
              destOpenFault := None; destWriteShort := Some 1%nat;
              removeFault := None; renameFault := None |} in
  let r := updateFromWeb c o (etagScheme "v1") Examples.cached in
  contentAt (fs r.2) (cacheFile c) = Some [Byte.x6e].
Proof.
  pose proof (fallback_short_write_truncates_file
                (Examples.cache Examples.accept)
                {| headAnswer := Examples.unreachable;
                   getAnswer := inl Examples.fresh;
                   tmpOpenFault := Some ErrPermission; tmpWriteShort := None;
                   destOpenFault := None; destWriteShort := Some 1%nat;
                   removeFault := None; renameFault := None |}
                (etagScheme "v1") Examples.cached Examples.new_bytes 1%nat
                eq_refl eq_refl
                (or_introl (ex_intro _ ErrPermission eq_refl)) eq_refl eq_refl)
    as (_ & Htorn).
  exact Htorn.
Defined.

(** ** The loop as a whole *)

Lemma after_nil (w : World) : after w [] = w.
Proof. destruct w; unfold after; simpl. by rewrite app_nil_r. Qed.

(** How a cycle starts: either the HEAD request fails and that is the
    whole cycle, or the cycle goes on as a cycle with a scheme [s], after
    events [pre] that are empty when the scheme was there already. *)
Lemma checkUpdates_cases TimeFormat c o d scheme w :
  (scheme = None
   ∧ ∃ err,
       checkUpdates TimeFormat c o d scheme w
       = (None,
          after w [EvLog Info "Cache scheme unknown, issue HEAD request to determine scheme" None;
                   EvHead (url c);
                   EvLog Error "Unable to request modified of %v: %v" (Some err)]))
  ∨ ∃ s pre,
      checkUpdates TimeFormat c o d scheme w
      = checkUpdates TimeFormat c o d (Some s) (after w pre)
      ∧ Forall (λ e, isCallback e = false ∧ isDiskOp e = false
                     ∧ isSleep e = false) pre
      ∧ (scheme = Some s ∧ pre = []
         ∨ scheme = None ∧ Forall (λ e, match e with EvDo _ => False | _ => True end) pre).
Proof.
  destruct scheme as [s|].
  - right. exists s, []. rewrite after_nil. repeat split; [done|]. by left.
  - rewrite checkUpdates_unset.
    destruct (headAnswer o) as [headResp|err] eqn:H.
    + right.
      destruct (determineScheme_answered TimeFormat c o d w headResp H)
        as (s & note & -> & _). simpl.
      eexists s, _. split; [reflexivity|].
      split; [by repeat constructor|]. right. by repeat constructor.
    + left. split; [done|]. exists err.
      by rewrite (determineScheme_unreachable _ _ _ _ _ _ H).
Qed.

(** [updateFromWeb] touches two names on disk, the cache file and the
    temporary file. *)
Lemma updateFromWeb_frame c o s w p :
  p ≠ cacheFile c → p ≠ tmpFileOf c →
  fs (updateFromWeb c o s w).2 !! p = fs w !! p.
Proof.
  unfold tmpFileOf. intros Hc Ht. enter_updateFromWeb.
  repeat (split_oracle; run_io; try done); by simplify_map_eq.
Qed.

Lemma checkUpdates_frame TimeFormat c o d scheme w p :
  p ≠ cacheFile c → p ≠ tmpFileOf c →
  fs (checkUpdates TimeFormat c o d scheme w).2 !! p = fs w !! p.
Proof.
  intros Hc Ht.
  destruct (checkUpdates_cases TimeFormat c o d scheme w)
    as [(_ & err & ->)|(s & pre & -> & _ & _)]; [done|].
  rewrite checkUpdates_established. simpl.
  pose proof (updateFromWeb_frame c o s (after w pre) p Hc Ht) as H.
  by destruct (updateFromWeb c o s (after w pre)) as [[s' [e|]] w'].
Qed.

(** However long the loop runs and whatever happens to it, every file
    other than the cache file and the file named after it with the suffix
    "_temp" is exactly as it was. *)
Theorem other_files_untouched (TimeFormat : Time → string) (c : urlcache) (d : Time) (os : list CycleOracle) (scheme : option cacheScheme) (w : World) (p : string) :
  p ≠ cacheFile c →
  p ≠ tmpFileOf c →
  fs (keepCurrentFrom TimeFormat c d scheme os w).2 !! p = fs w !! p.
Proof.
  intros Hc Ht. revert scheme w.
  induction os as [|o os IH]; intros scheme w; [done|].
  rewrite keepCurrentFrom_cons. simpl. rewrite IH. simpl.
  by apply checkUpdates_frame.
Qed.

Lemma other_files_untouched_witness :
  fs (keepCurrentFrom Examples.httpDate (Examples.cache Examples.accept) 0 None
        [Examples.smooth (inl Examples.fresh) (inl Examples.fresh)]
        Examples.cached).2 !! "var/other"
  = fs Examples.cached !! "var/other".
Proof.
  apply (other_files_untouched Examples.httpDate
           (Examples.cache Examples.accept) 0
           [Examples.smooth (inl Examples.fresh) (inl Examples.fresh)]
           None Examples.cached "var/other");
    vm_compute; congruence.
Defined.

(** What one call of [updateFromWeb] adds up to. *)
Lemma updateFromWeb_cycle c o s w :
  let r := updateFromWeb c o s w in
  ∃ evs,
    trace r.2 = trace w ++ evs
    ∧ now r.2 = now w
    ∧ Forall (λ e, isSleep e = false) evs
    ∧ calls evs = option_list (delivered o)
    ∧ r.1.1 = from_option (onResponse s) s (answered o)
    ∧ (diskWorks o →
       contentAt (fs r.2) (cacheFile c)
       = from_option Some (contentAt (fs w) (cacheFile c)) (lastAccepted c evs)).
Proof.
  pose proof (temp_name_differs (cacheFile c)) as Htmp.
  unfold delivered, answered, diskWorks, lastAccepted. enter_updateFromWeb.
  repeat (split_oracle; run_io); rewrite <- ?app_assoc; simpl;
    eexists; (split; [reflexivity|]); (split; [done|]);
    (split; [by repeat constructor|]); (split; [done|]); (split; [done|]);
    intros (? & ? & ? & ?); simplify_eq; simpl;
    repeat match goal with
      | H : onUpdate _ _ = _ |- _ => rewrite H
      end; simpl; unfold contentAt; by simplify_map_eq.
Qed.

(** The same for a whole cycle, whatever the scheme at its start. *)
Lemma checkUpdates_cycle TimeFormat c o d scheme w :
  let r := checkUpdates TimeFormat c o d scheme w in
  ∃ evs,
    trace r.2 = trace w ++ evs
    ∧ now r.2 = now w
    ∧ Forall (λ e, isSleep e = false) evs
    ∧ (diskWorks o →
       contentAt (fs r.2) (cacheFile c)
       = from_option Some (contentAt (fs w) (cacheFile c)) (lastAccepted c evs)).
Proof.
  destruct (checkUpdates_cases TimeFormat c o d scheme w)
    as [(_ & err & ->)|(s & pre & -> & Hpre & _)]; simpl.
  - eexists. split; [reflexivity|]. split; [done|].
    split; [by repeat constructor|]. done.
  - rewrite checkUpdates_established. simpl.
    destruct (updateFromWeb_cycle c o s (after w pre))
      as (evs & Htr & Hnow & Hsl & _ & _ & Hdisk).
    assert (omap (acceptedBy c) pre = []) as Hnone.
    { clear -Hpre. induction Hpre as [|e pre (Hc & _ & _) _ IH]; [done|].
      destruct e; try done; exact IH. }
    assert (Forall (λ e, isSleep e = false) pre) as Hpsl.
    { eapply Forall_impl; [exact Hpre|]. by intros e (_ & _ & ?). }
    destruct (updateFromWeb c o s (after w pre)) as [[s' [e|]] w'];
      cbn [fst snd after trace now fs] in *.
    + exists (pre ++ evs ++ [EvLog Error "Unable to update from web: %v" (Some e)]).
      rewrite Htr. repeat split; [by rewrite <- !app_assoc | done | |].
      * repeat (apply Forall_app; split); [done..|by repeat constructor].
      * intros Hd. rewrite (Hdisk Hd). unfold lastAccepted.
        rewrite !omap_app, Hnone. simpl. by rewrite app_nil_r.
    + exists (pre ++ evs).
      rewrite Htr. repeat split; [by rewrite <- !app_assoc | done | |].
      * by apply Forall_app.
      * intros Hd. rewrite (Hdisk Hd). unfold lastAccepted.
        by rewrite !omap_app, Hnone.
Qed.


(** As long as the temporary file can be written, the old file removed
    and the rename done, the cache file holds, after any number of
    cycles, the bytes the callback accepted last in those cycles; if it
    accepted none, the cache file holds what it held before. *)
Theorem cache_holds_last_accepted (TimeFormat : Time → string) (c : urlcache) (d : Time) (os : list CycleOracle) (scheme : option cacheScheme) (w : World) :
  Forall diskWorks os →
  let r := keepCurrentFrom TimeFormat c d scheme os w in
  ∃ evs,
    trace r.2 = trace w ++ evs
    ∧ contentAt (fs r.2) (cacheFile c)
      = from_option Some (contentAt (fs w) (cacheFile c)) (lastAccepted c evs).
Proof.
  intros Hos. revert scheme w.
  induction Hos as [|o os Ho _ IH]; intros scheme w.
  - rewrite keepCurrentFrom_nil. simpl. exists []. by rewrite app_nil_r.
  - rewrite keepCurrentFrom_cons. simpl.
    destruct (checkUpdates_cycle TimeFormat c o d scheme w)
      as (evs1 & Htr1 & _ & _ & Hdisk).
    match goal with
    | |- context [keepCurrentFrom _ _ _ ?s1 os ?w1] =>
        destruct (IH s1 w1) as (evs2 & Htr2 & Hfs2)
    end.
    exists (evs1 ++ EvSleep (checkInterval c) :: evs2). split.
    + rewrite Htr2. simpl. rewrite Htr1. by rewrite <- !app_assoc.
    + rewrite Hfs2. cbn [slept fs]. rewrite (Hdisk Ho). unfold lastAccepted.
      rewrite omap_app.
      change (omap (acceptedBy c) (EvSleep (checkInterval c) :: evs2))
        with (omap (acceptedBy c) evs2).
      rewrite last_app.
      by destruct (last (omap (acceptedBy c) evs2)).
Qed.

Lemma cache_holds_last_accepted_witness :
  let c := Examples.cache Examples.accept in
  let os := [Examples.smooth (inl Examples.tagged) (inl Examples.tagged);
             Examples.smooth Examples.unreachable (inl Examples.unchanged)] in
  let r := keepCurrentFrom Examples.httpDate c 0 None os Examples.cached in
  ∃ evs,
    trace r.2 = trace Examples.cached ++ evs
    ∧ contentAt (fs r.2) (cacheFile c)
      = from_option Some (contentAt (fs Examples.cached) (cacheFile c))
          (lastAccepted c evs).
Proof.
  apply (cache_holds_last_accepted Examples.httpDate
           (Examples.cache Examples.accept) 0
           [Examples.smooth (inl Examples.tagged) (inl Examples.tagged);
            Examples.smooth Examples.unreachable (inl Examples.unchanged)]
           None Examples.cached).
  repeat constructor.
Defined.

(** One cycle with a scheme in hand: the callback is called with the body
    of the answer when the answer is not a 304 and can be read, and not
    otherwise; the scheme afterwards is [onResponse] of the answer, or the
    scheme as it was when there was no answer. *)
Lemma checkUpdates_established_cycle TimeFormat c o d s w :
  let r := checkUpdates TimeFormat c o d (Some s) w in
  ∃ evs,
    trace r.2 = trace w ++ evs
    ∧ calls evs = option_list (delivered o)
    ∧ r.1 = Some (from_option (onResponse s) s (answered o)).
Proof.
  rewrite checkUpdates_established. simpl.
  destruct (updateFromWeb_cycle c o s w)
    as (evs & Htr & _ & _ & Hcalls & Hs & _).
  destruct (updateFromWeb c o s w) as [[s' [e|]] w'];
    cbn [fst snd after trace] in *.
  - exists (evs ++ [EvLog Error "Unable to update from web: %v" (Some e)]).
    rewrite Htr, Hs. repeat split; [by rewrite <- app_assoc|].
    unfold calls in *. rewrite omap_app, Hcalls. simpl. by rewrite app_nil_r.
  - exists evs. by rewrite Htr, Hs.
Qed.

Lemma onResponse_last_wins (s : cacheScheme) (r1 r2 : http.Response) :
  onResponse (onResponse s r1) r2 = onResponse s r2.
Proof. by destruct s. Qed.

(** Once a scheme is established, its token after any number of cycles is
    the one taken from the last GET request that was answered in them, and
    the token it started with if none was: no earlier answer counts. *)
Theorem token_follows_last_response (TimeFormat : Time → string) (c : urlcache) (d : Time) (os : list CycleOracle) (s : cacheScheme) (w : World) :
  (keepCurrentFrom TimeFormat c d (Some s) os w).1
  = Some (from_option (onResponse s) s (last (omap answered os))).
Proof.
  revert s w. induction os as [|o os IH]; intros s w; [done|].
  rewrite keepCurrentFrom_cons. cbn zeta.
  destruct (checkUpdates_established_cycle TimeFormat c o d s w)
    as (_ & _ & _ & ->). rewrite IH. f_equal.
  change (omap answered (o :: os))
    with (from_option (λ y, y :: omap answered os) (omap answered os)
            (answered o)).
  destruct (answered o) as [resp|]; cbn [from_option]; [|done].
  rewrite last_cons.
  destruct (last (omap answered os)); cbn [from_option]; [|done].
  apply onResponse_last_wins.
Qed.

(** Once a scheme is established, the callback is called exactly once
    for every cycle whose GET request is answered with something other
    than a 304 and a body that can be read, with that body, in the order
    of the cycles, and never otherwise: whether the token changed, or the
    bytes, plays no part. *)
Theorem callbacks_match_deliveries (TimeFormat : Time → string) (c : urlcache) (d : Time) (os : list CycleOracle) (s : cacheScheme) (w : World) :
  let r := keepCurrentFrom TimeFormat c d (Some s) os w in
  ∃ evs, trace r.2 = trace w ++ evs ∧ calls evs = omap delivered os.
Proof.
  revert s w. induction os as [|o os IH]; intros s w.
  - rewrite keepCurrentFrom_nil. simpl. exists []. by rewrite app_nil_r.
  - rewrite keepCurrentFrom_cons. simpl.
    destruct (checkUpdates_established_cycle TimeFormat c o d s w)
      as (evs1 & Htr1 & Hcalls1 & ->). simpl.
    match goal with
    | |- context [keepCurrentFrom _ _ _ (Some ?s1) os ?w1] =>
        destruct (IH s1 w1) as (evs2 & Htr2 & Hcalls2)
    end.
    exists (evs1 ++ EvSleep (checkInterval c) :: evs2). split.
    + rewrite Htr2. simpl. rewrite Htr1. by rewrite <- !app_assoc.
    + unfold calls in *. rewrite omap_app, Hcalls1.
      change (omap ?f (EvSleep (checkInterval c) :: evs2)) with (omap f evs2).
      rewrite Hcalls2. by destruct (delivered o).
Qed.

(** ** Open and the first read *)


Lemma unreachable_url_changes_nothing_witness :
  let c := Examples.cache Examples.accept in
  let os := [Examples.smooth Examples.unreachable Examples.unreachable;
             Examples.smooth Examples.unreachable (inl Examples.fresh)] in
  (keepCurrent Examples.httpDate c 0 os Examples.bare).1 = None
  ∧ fs (keepCurrent Examples.httpDate c 0 os Examples.bare).2 = fs Examples.bare.
Proof.
  pose proof (unreachable_url_changes_nothing Examples.httpDate
                (Examples.cache Examples.accept) 0
                [Examples.smooth Examples.unreachable Examples.unreachable;
                 Examples.smooth Examples.unreachable (inl Examples.fresh)])
    as H.
  destruct (H ltac:(repeat constructor; by eexists) Examples.bare)
    as (Hs & Hfs & _).
  split; [exact Hs | exact Hfs].
Defined.

(** When there is no cache file, or it cannot be opened, [readInitial]
    does nothing but try to open it: the callback is not called. *)
Theorem readInitial_without_file (c : urlcache) (o : StartOracle) (w : World) :
  fs w !! cacheFile c = None ∨ is_Some (openFault o) →
  readInitial c o w = (zeroTime, after w [EvOpen (cacheFile c)]).
Proof.
  intros H. unfold readInitial, os_Open. run_io.
  destruct (fs w !! cacheFile c); [|done].
  destruct H as [|[e He]]; [done|]. by rewrite He.
Qed.

Lemma readInitial_without_file_witness :
  readInitial (Examples.cache Examples.accept) Examples.calm Examples.bare
  = (zeroTime, after Examples.bare [EvOpen "var/list"]).
Proof.
  apply (readInitial_without_file (Examples.cache Examples.accept)
           Examples.calm Examples.bare).
  left. reflexivity.
Defined.

(** When [Open] returns an error, the attempt to create the directory is
    all it has done: the cache file has not been opened, the callback has
    not been called, no goroutine has been started. *)
Theorem Open_failure_does_nothing_else (o : StartOracle) (u cf : string) (ci : Duration) (cb : bytes → option error) (w : World) :
  is_Some (Open o u cf ci cb w).1 →
  (Open o u cf ci cb w).2 = after w [EvMkdirAll (filepath.Split cf).1].
Proof.
  unfold Open, os_MkdirAll. destruct (filepath.Split cf) as [dir file].
  run_io.
  repeat (split_oracle; run_io); try done;
    destruct (readInitial _ o _); by intros [? [=]].
Qed.

Lemma Open_failure_does_nothing_else_witness :
  (Open {| mkdirFault := Some ErrPermission; openFault := None |}
     "http://example.com/list" "var/list" 0 Examples.accept Examples.cached).2
  = after Examples.cached [EvMkdirAll "var/"].
Proof.
  apply (Open_failure_does_nothing_else
           {| mkdirFault := Some ErrPermission; openFault := None |}
           "http://example.com/list" "var/list" 0 Examples.accept
           Examples.cached).
  vm_compute. by eexists.
Defined.

(** What [Open] passes on when it succeeds. *)
Lemma Open_spawned o u cf ci cb w :
  (Open o u cf ci cb w).1 = None →
  last (spawned (Open o u cf ci cb w).2)
  = Some {| g_cache :=
              {| url := u; cacheFile := cf;
                 checkInterval :=
                   if decide (ci ≤ 0)%Z then defaultCheckInterval else ci;
                 onUpdate := cb |};
            g_initialDate := zeroTime |}.
Proof.
  unfold Open, os_MkdirAll. destruct (filepath.Split cf) as [dir file].
  run_io.
  repeat (split_oracle; run_io); try done;
    match goal with
    | |- context [readInitial ?c o ?w0] =>
        destruct (readInitial_effect c o w0) as (evs & -> & _)
    end; simpl; intros _; by rewrite last_snoc.
Qed.

(** The loop [Open] starts polls the URL and the file it was given, with
    a positive interval: the interval it was given when that is positive,
    one minute otherwise. *)
Theorem Open_interval_positive (o : StartOracle) (u cf : string) (ci : Duration) (cb : bytes → option error) (w : World) :
  (Open o u cf ci cb w).1 = None →
  ∃ g,
    last (spawned (Open o u cf ci cb w).2) = Some g
    ∧ url (g_cache g) = u
    ∧ cacheFile (g_cache g) = cf
    ∧ (0 < checkInterval (g_cache g))%Z
    ∧ ((0 < ci)%Z → checkInterval (g_cache g) = ci)
    ∧ ((ci ≤ 0)%Z → checkInterval (g_cache g) = 60000000000).
Proof.
  intros H. eexists. split; [by apply Open_spawned|]. simpl.
  repeat split; destruct (decide (ci ≤ 0)%Z); try done;
    try (vm_compute; lia); lia.
Qed.

Lemma Open_interval_positive_witness :
  ∃ g,
    last (spawned (Open Examples.calm "http://example.com/list" "var/list"
                     (-5) Examples.accept Examples.cached).2) = Some g
    ∧ checkInterval (g_cache g) = 60000000000.
Proof.
  destruct (Open_interval_positive Examples.calm "http://example.com/list"
              "var/list" (-5) Examples.accept Examples.cached eq_refl)
    as (g & Hg & _ & _ & _ & _ & Hdef).
  exists g. split; [exact Hg|]. apply Hdef. lia.
Defined.







(** ** The package before the schemes *)

Ltac enter_legacy :=
  unfold Legacy.checkUpdates, Legacy.updateFromWeb, Legacy.saveToTmpFile,
    Legacy.runUpdate, Legacy.ioutil_TempFile, Legacy.io_Copy, Legacy.http_Get,
    Legacy.log_Debugf, os_Open, readContents, os_File_Write,
    os_Remove, os_Rename;
  run_io.

Lemma legacy_checkUpdates_le ParseTime c o prevDate w :
  (prevDate ≤ (Legacy.checkUpdates ParseTime c o prevDate w).1)%Z.
Proof.
  enter_legacy.
  repeat (split_oracle; run_io; try lia).
Qed.

(** The date the loop carries never goes back, however many cycles run
    and whatever they come to. *)
Theorem legacy_date_never_goes_back (ParseTime : string → Time + error) (c : urlcache) (os : list Legacy.CycleOracle) (currentDate : Time) (w : World) :
  (currentDate ≤ (Legacy.keepCurrent ParseTime c currentDate os w).1)%Z.
Proof.
  revert currentDate w. induction os as [|o os IH]; intros currentDate w.
  - simpl. reflexivity.
  - simpl. unfold mbind at 1, IO_bind.
    pose proof (legacy_checkUpdates_le ParseTime c o currentDate w) as Hle.
    destruct (Legacy.checkUpdates ParseTime c o currentDate w) as [d1 w1].
    run_io. etrans; [exact Hle|]. apply IH.
Qed.

(** A cycle changes the date only when it has fetched and committed: the
    date afterwards is the date before, or it is the Last-Modified date of
    the HEAD response, later than the date before, and then the callback
    has accepted the body of the GET response and the cache file holds
    it. *)
Theorem legacy_date_moves_only_on_success (ParseTime : string → Time + error) (c : urlcache) (o : Legacy.CycleOracle) (prevDate : Time) (w : World) :
  let r := Legacy.checkUpdates ParseTime c o prevDate w in
  r.1 = prevDate
  ∨ ((prevDate < r.1)%Z
     ∧ ∃ headResp resp body,
         Legacy.headAnswer o = inl headResp
         ∧ Legacy.lastModified ParseTime headResp = inl r.1
         ∧ Legacy.getAnswer o = inl resp
         ∧ http.Body resp = inl body
         ∧ onUpdate c body = None
         ∧ contentAt (fs r.2) (cacheFile c) = Some body).
Proof.
  enter_legacy.
  destruct (Legacy.headAnswer o) as [headResp|err]; run_io; [|by left].
  destruct (Legacy.lastModified ParseTime headResp) as [lm|err] eqn:Hlm;
    run_io; [|by left].
  destruct (decide _) as [Hlt|]; run_io; [|by left].
  destruct (Legacy.getAnswer o) as [resp|err]; run_io; [|by left].
  destruct (http.Body resp) as [body|err] eqn:Hbody;
    repeat (split_oracle; run_io; try (by left));
    right; (split; [done|]); exists headResp, resp, body;
    (destruct (decide (Legacy.tempName o = cacheFile c)) as [Heq|Hne];
     [rewrite ?Heq in *|]);
    simplify_map_eq; repeat split; try done;
    unfold contentAt; by simplify_map_eq.
Qed.

Lemma legacy_date_moves_only_on_success_witness :
  let c := Examples.cache Examples.accept in
  let o := LegacyExamples.smooth (inl Examples.fresh) (inl Examples.fresh) in
  let r := Legacy.checkUpdates LegacyExamples.parseDate c o 0 Examples.cached in
  r.1 = 63839750400
  ∧ contentAt (fs r.2) (cacheFile c) = Some Examples.new_bytes.
Proof.
  destruct (legacy_date_moves_only_on_success LegacyExamples.parseDate
              (Examples.cache Examples.accept)
              (LegacyExamples.smooth (inl Examples.fresh) (inl Examples.fresh))
              0 Examples.cached)
    as [Hsame|(_ & headResp & resp & body & _ & _ & Hget & Hbody & _ & Hfile)].
  - vm_compute in Hsame. discriminate Hsame.
  - split; [reflexivity|].
    injection Hget as <-. injection Hbody as <-. exact Hfile.
Defined.

(** When the Last-Modified date of the HEAD response is not later than
    the date the loop carries, the cycle is the HEAD request and nothing
    else: no GET request, no call of the callback, nothing on disk. *)
Theorem legacy_no_fetch_unless_newer (ParseTime : string → Time + error) (c : urlcache) (o : Legacy.CycleOracle) (prevDate : Time) (w : World) (headResp : http.Response) (lm : Time) :
  Legacy.headAnswer o = inl headResp →
  Legacy.lastModified ParseTime headResp = inl lm →
  (lm ≤ prevDate)%Z →
  Legacy.checkUpdates ParseTime c o prevDate w
  = (prevDate, after w [EvHead (url c)]).
Proof.
  intros Hh Hlm Hle. enter_legacy. rewrite Hh. run_io. rewrite Hlm.
  rewrite decide_False by lia. done.
Qed.

Lemma legacy_no_fetch_unless_newer_witness :
  Legacy.checkUpdates LegacyExamples.parseDate (Examples.cache Examples.accept)
    (LegacyExamples.smooth (inl Examples.fresh) (inl Examples.fresh))
    63839750400 Examples.cached
  = (63839750400, after Examples.cached [EvHead "http://example.com/list"]).
Proof.
  apply (legacy_no_fetch_unless_newer LegacyExamples.parseDate
           (Examples.cache Examples.accept)
           (LegacyExamples.smooth (inl Examples.fresh) (inl Examples.fresh))
           63839750400 Examples.cached Examples.fresh 63839750400).
  - reflexivity.
  - reflexivity.
  - lia.
Defined.

(** In this version a callback that rejects the fetched bytes sets
    nothing forward: the date the loop carries is the date before, so the
    next cycle fetches again, and the cache file is as it was. The bytes
    stay behind in the temporary file, which is not removed. *)
Theorem legacy_callback_failure_rolls_back (ParseTime : string → Time + error) (c : urlcache) (o : Legacy.CycleOracle) (prevDate : Time) (w : World) (headResp resp : http.Response) (lm : Time) (body : bytes) (e : error) :
  Legacy.headAnswer o = inl headResp →
  Legacy.lastModified ParseTime headResp = inl lm →
  (prevDate < lm)%Z →
  Legacy.getAnswer o = inl resp →
  http.Body resp = inl body →
  Legacy.tempFault o = None →
  fs w !! Legacy.tempName o = None →
  Legacy.copyShort o = None →
  Legacy.reopenFault o = None →
  onUpdate c body = Some e →
  let r := Legacy.checkUpdates ParseTime c o prevDate w in
  r.1 = prevDate
  ∧ (Legacy.tempName o ≠ cacheFile c →
     fs r.2 !! cacheFile c = fs w !! cacheFile c)
  ∧ contentAt (fs r.2) (Legacy.tempName o) = Some body
  ∧ trace r.2
    = trace w
      ++ [EvHead (url c); EvLog Info "Updating from web" None;
          EvDo (http.NewRequest http.MethodGet (url c));
          EvOpenFile (Legacy.tempName o); EvWrite (Legacy.tempName o) body;
          EvOpen (Legacy.tempName o); EvOnUpdate body;
          EvLog Error "Unable to update from web: %v"
            (Some (Errorf "Unable to call onUpdate: %v" e))].
Proof.
  intros Hh Hlm Hlt Hg Hb Htf Hfresh Hcs Hro Hcb. enter_legacy.
  rewrite Hh. run_io. rewrite Hlm. rewrite decide_True by done. run_io.
  rewrite Hg. run_io. rewrite Htf. run_io. rewrite Hfresh. run_io.
  rewrite Hb. run_io. rewrite Hcs. run_io.
  rewrite !lookup_insert_eq. rewrite Hro. run_io.
  rewrite !lookup_insert_eq. simpl. rewrite Hcb. run_io.
  unfold contentAt. repeat split.
  - intros Hne. by rewrite !lookup_insert_ne.
  - by rewrite lookup_insert_eq.
  - by rewrite <- !app_assoc.
Qed.

Lemma legacy_callback_failure_rolls_back_witness :
  let c := Examples.cache Examples.reject in
  let o := LegacyExamples.smooth (inl Examples.fresh) (inl Examples.fresh) in
  let r := Legacy.checkUpdates LegacyExamples.parseDate c o 0 Examples.cached in
  r.1 = 0
  ∧ contentAt (fs r.2) "tmp/urlcache123456" = Some Examples.new_bytes.
Proof.
  pose proof (legacy_callback_failure_rolls_back LegacyExamples.parseDate
                (Examples.cache Examples.reject)
                (LegacyExamples.smooth (inl Examples.fresh) (inl Examples.fresh))
                0 Examples.cached Examples.fresh Examples.fresh 63839750400
                Examples.new_bytes (CallbackError "cannot parse")
                eq_refl eq_refl ltac:(lia) eq_refl eq_refl eq_refl eq_refl
                eq_refl eq_refl eq_refl)
    as (Hdate & _ & Htmp & _).
  split; [exact Hdate | exact Htmp].
Defined.

(** ** The package's tests *)

(** The server of [doTestCache] never answers 304. For the header names
    the tests use (the two are different) and a value that is not empty,
    the answer is the value itself, in the header and as the body, whatever
    the request asked for; so every fetch against it reaches the
    callback, with the bytes of the current value. *)
Theorem test_server_always_sends_the_value (header modifiedHeader v : string) (c : urlcache) (o : CycleOracle) (s : cacheScheme) (w : World) :
  header ≠ modifiedHeader →
  v ≠ "" →
  testHandler header modifiedHeader v
  = {| http.StatusCode := http.StatusOK;
       http.RespHeader := {[ header := v ]};
       http.Body := inl (list_byte_of_string v) |}
  ∧ (getAnswer o = inl (testHandler header modifiedHeader v) →
     ∃ rest,
       trace (updateFromWeb c o s w).2
       = trace w ++ EvDo (requestFor c s)
                 :: EvOnUpdate (list_byte_of_string v) :: rest).
Proof.
  intros Hne Hv.
  assert (testHandler header modifiedHeader v
          = {| http.StatusCode := http.StatusOK;
               http.RespHeader := {[ header := v ]};
               http.Body := inl (list_byte_of_string v) |}) as Hresp.
  { unfold testHandler, http.Get, http.Set_.
    rewrite lookup_insert_ne, lookup_empty by done. simpl.
    destruct v; [done|]. by rewrite insert_empty. }
  split; [exact Hresp|]. rewrite Hresp. intros Hget.
  by apply (updateFromWeb_delivers c o s w _ _ Hget).
Qed.

Lemma test_server_always_sends_the_value_witness :
  testHandler etagHeader ifNoneMatchHeader "aa"
  = {| http.StatusCode := http.StatusOK;
       http.RespHeader := {[ etagHeader := "aa" ]};
       http.Body := inl [Byte.x61; Byte.x61] |}.
Proof.
  pose proof (test_server_always_sends_the_value etagHeader ifNoneMatchHeader
                "aa" (Examples.cache Examples.accept)
                (Examples.smooth Examples.unreachable Examples.unreachable)
                (etagScheme "aa") Examples.bare
                ltac:(vm_compute; congruence) ltac:(congruence))
    as (Hresp & _).
  exact Hresp.
Defined.
